(** * A shallow embedding of the RAG chatbot core

    The repository is a retrieval-augmented chatbot written in Python.  Its
    core is four modules:

    - [llm_loader.py]          the JSON driven LLM registry ([LLMLoader]),
    - [document_processor.py]  extension dispatch and batch loading
                               ([DocumentProcessor]),
    - [vector_store.py]        the wrapper around the vector database
                               ([VectorStore]),
    - [rag_chain.py]           the conversational chain ([RagChain]).

    Python values are modelled as the code has them: [str] as [string],
    JSON documents as the tree [json], dictionaries that are iterated as
    insertion ordered association lists, the instance cache as a [gmap],
    exceptions as an error monad, and the objects the code mutates as
    explicit state that every method threads through.  Calls that leave the
    repository (the interpreter's import machinery, the constructors of the
    LLM clients, the file system, the vector database, the language model)
    are parameters of the sections below. *)

From Stdlib Require Import ZArith Ascii String List Bool Lia.
From stdpp Require Import base option list strings gmap pretty.


(* ===================================================================== *)
(** * Python preliminaries *)
(* ===================================================================== *)

Module Py.

(** The exception classes the four modules raise or catch.  A kind stands
    for the class and its subclasses ([ImportError] for a module that is
    not found too).  Every value of [Exc] is an instance of a subclass of
    Python's [Exception]: what [except Exception] catches. *)
Inductive ExcKind :=
| ValueError
| ImportError
| AttributeError
| TypeError
| IndexError
| KeyError
| FileNotFoundError
| NotADirectoryError
| PlainException
| OtherError (class_name : string).

(** [exc_str e] is [str(e)]. *)
Record Exc := mkExc { exc_kind : ExcKind; exc_str : string }.

Inductive result (A : Type) :=
| Ok (a : A)
| Raise (e : Exc).
Arguments Ok {A} a.
Arguments Raise {A} e.

#[export] Instance result_ret : MRet result := fun A a => Ok a.
#[export] Instance result_bind : MBind result :=
  fun A B f m => match m with Ok a => f a | Raise e => Raise e end.
#[export] Instance result_fmap : FMap result :=
  fun A B f m => match m with Ok a => Ok (f a) | Raise e => Raise e end.

Definition is_ok {A} (r : result A) : bool :=
  match r with Ok _ => true | Raise _ => false end.

(** ** Strings *)

(** [s.startswith(p)] *)
Definition startswith (p s : string) : bool := String.prefix p s.

(** [sub in s] *)
Fixpoint contains (sub s : string) : bool :=
  String.prefix sub s ||
  match s with
  | EmptyString => false
  | String _ s' => contains sub s'
  end.

(** [s + c] for one character. *)
Definition snoc (s : string) (c : ascii) : string := s +:+ String c "".

(** [s.split(sep)] for a non-empty separator: the pieces between the
    occurrences of [sep], found from the left and not overlapping.  [skip]
    counts the characters of a matched separator still to be passed over,
    [cur] is the piece being read. *)
Fixpoint split_go (sep : string) (skip : nat) (cur : string) (s : string)
  : list string :=
  match s with
  | EmptyString => [cur]
  | String c s' =>
      match skip with
      | S k => split_go sep k cur s'
      | O =>
          if String.prefix sep s
          then cur :: split_go sep (String.length sep - 1) "" s'
          else split_go sep 0 (snoc cur c) s'
      end
  end.

Definition split (sep s : string) : list string := split_go sep 0 "" s.

(** [sep.join(l)] *)
Definition join (sep : string) (l : list string) : string :=
  String.concat sep l.

(** [s.lower()] on ASCII text: the letters A..Z move to a..z, every other
    byte stays. *)
Definition lower_ascii (c : ascii) : ascii :=
  let n := nat_of_ascii c in
  if (65 <=? n)%nat && (n <=? 90)%nat then ascii_of_nat (n + 32) else c.

Fixpoint lower (s : string) : string :=
  match s with
  | EmptyString => EmptyString
  | String c s' => String (lower_ascii c) (lower s')
  end.

(** ** Paths (POSIX flavour) *)

(** The components of a path as [pathlib] keeps them: the pieces between
    slashes, empty pieces and single dots dropped. *)
Definition path_parts (p : string) : list string :=
  filter (fun c => c <> "" /\ c <> ".") (split "/" p).

(** [Path(p).name]: the last component, or the empty string. *)
Definition path_name (p : string) : string := List.last (path_parts p) "".

(** [s.rfind(c)]: the last index of [c], if any. *)
Fixpoint rfind_go (c : ascii) (s : string) (i : nat) (found : option nat)
  : option nat :=
  match s with
  | EmptyString => found
  | String a s' =>
      rfind_go c s' (S i) (if Ascii.eqb a c then Some i else found)
  end.

Definition rfind (c : ascii) (s : string) : option nat := rfind_go c s 0 None.

(** [Path(p).suffix]: with [i] the last dot of the name, the text from [i]
    on when [0 < i < len(name) - 1], the empty string otherwise. *)
Definition path_suffix (p : string) : string :=
  let name := path_name p in
  match rfind "."%char name with
  | Some i =>
      if (0 <? i)%nat && (i <? String.length name - 1)%nat
      then String.substring i (String.length name - i) name
      else ""
  | None => ""
  end.

(** [os.path.basename(p)]: what follows the last slash. *)
Fixpoint basename_go (cur : string) (p : string) : string :=
  match p with
  | EmptyString => cur
  | String c p' =>
      if Ascii.eqb c "/"%char then basename_go "" p'
      else basename_go (snoc cur c) p'
  end.

Definition basename (p : string) : string := basename_go "" p.

(** ** Insertion ordered dictionaries *)

(** A Python [dict] with string keys: the items in insertion order. *)
Definition pydict (V : Type) : Type := list (string * V).

(** [d.get(k)] *)
Fixpoint dict_get {V} (k : string) (d : pydict V) : option V :=
  match d with
  | [] => None
  | (k', v) :: d' => if String.eqb k k' then Some v else dict_get k d'
  end.

(** [d[k] = v]: an existing key keeps its place, a new key goes last. *)
Fixpoint dict_set {V} (k : string) (v : V) (d : pydict V) : pydict V :=
  match d with
  | [] => [(k, v)]
  | (k', v') :: d' =>
      if String.eqb k k' then (k, v) :: d' else (k', v') :: dict_set k v d'
  end.

(** [d.keys()] *)
Definition dict_keys {V} (d : pydict V) : list string := map fst d.

(** [k in d] *)
Definition dict_mem {V} (k : string) (d : pydict V) : bool :=
  match dict_get k d with Some _ => true | None => false end.

End Py.

(* ===================================================================== *)
(** * JSON values, as [json.load] returns them *)
(* ===================================================================== *)

Module Json.
Import Py.

(** A float is kept as a decimal [m * 10^e]; only whether it is zero is
    ever looked at. *)
#[warnings="-register-all"]
Inductive json :=
| JNull
| JBool (b : bool)
| JInt (n : Z)
| JFloat (m e : Z)
| JStr (s : string)
| JList (l : list json)
| JDict (d : list (string * json)).

(** Python's truth value of a JSON value ([not v] is its negation). *)
Definition truthy (v : json) : bool :=
  match v with
  | JNull => false
  | JBool b => b
  | JInt n => negb (n =? 0)%Z
  | JFloat m _ => negb (m =? 0)%Z
  | JStr s => negb (String.eqb s "")
  | JList l => match l with [] => false | _ => true end
  | JDict d => match d with [] => false | _ => true end
  end.

Definition json_eqb_str (s : string) (v : json) : bool :=
  match v with JStr s' => String.eqb s s' | _ => false end.

(** [v.get(k, default)]: only a mapping has [get]. *)
Definition json_get (k : string) (default : json) (v : json) : result json :=
  match v with
  | JDict d => Ok (match dict_get k d with Some x => x | None => default end)
  | _ => Raise (mkExc AttributeError "object has no attribute 'get'")
  end.

(** [v.items()]: only a mapping has [items]. *)
Definition json_items (v : json) : result (pydict json) :=
  match v with
  | JDict d => Ok d
  | _ => Raise (mkExc AttributeError "object has no attribute 'items'")
  end.

(** Follow a path of keys through nested mappings. *)
Fixpoint lookup_path (p : list string) (v : json) : option json :=
  match p with
  | [] => Some v
  | k :: p' =>
      match v with
      | JDict d =>
          match dict_get k d with
          | Some x => lookup_path p' x
          | None => None
          end
      | _ => None
      end
  end.

(** A mapping as Python holds it: no key twice, at any depth below
    mappings. *)
Fixpoint nodup_keys {V} (d : pydict V) : bool :=
  match d with
  | [] => true
  | (k, _) :: d' => negb (dict_mem k d') && nodup_keys d'
  end.

Fixpoint well_formed (v : json) : bool :=
  match v with
  | JDict d => nodup_keys d && forallb (fun kv => well_formed kv.2) d
  | _ => true
  end.

(** Induction on JSON values that goes below mappings. *)
Lemma json_dict_ind (P : json -> Prop) :
  (forall v, (forall d, v <> JDict d) -> P v) ->
  (forall d, Forall (fun kv => P kv.2) d -> P (JDict d)) ->
  forall v, P v.
Proof.
  intros Hleaf Hdict. fix IH 1. intros v.
  destruct v as [| b | n | m e | s | l | d];
    try (apply Hleaf; intros d' Hd; discriminate Hd).
  apply Hdict. induction d as [|[k x] d IHd]; constructor.
  - apply IH.
  - apply IHd.
Qed.

End Json.

(* ===================================================================== *)
(** * Facts about the string helpers *)
(* ===================================================================== *)

Module PyFacts.
Import Py.

Lemma append_cons c s t : String c s +:+ t = String c (s +:+ t).
Proof. reflexivity. Qed.

Lemma append_nil_l s : "" +:+ s = s.
Proof. reflexivity. Qed.

Lemma append_nil_r s : s +:+ "" = s.
Proof.
  induction s as [|c s IH]; [done|]. by rewrite append_cons, IH.
Qed.

Lemma append_snoc s c t : snoc s c +:+ t = s +:+ String c t.
Proof.
  unfold snoc. induction s as [|a s IH]; [done|].
  by rewrite !append_cons, IH.
Qed.

(** Without an occurrence of the separator, [split] returns its argument
    as the only piece. *)
Lemma split_go_no_sep sep s :
  contains sep s = false ->
  forall cur, split_go sep 0 cur s = [cur +:+ s].
Proof.
  induction s as [|c s IH]; intros Hno cur.
  - simpl. by rewrite append_nil_r.
  - cbn [contains] in Hno. apply orb_false_iff in Hno as [Hp Hs].
    cbn [split_go]. rewrite Hp, (IH Hs). by rewrite append_snoc.
Qed.

(** [split] never returns the empty list. *)
Lemma split_go_nonempty sep s : forall skip cur, split_go sep skip cur s <> [].
Proof.
  induction s as [|c s IH]; intros skip cur; cbn [split_go]; [done|].
  destruct skip as [|k]; [|by apply IH].
  destruct (String.prefix sep (String c s)); [done|by apply IH].
Qed.

(** A string that starts with "ENV:" splits into an empty first piece and
    at least one more. *)
Lemma split_env_prefix s :
  startswith "ENV:" s = true ->
  exists x rest, split "ENV:" s = "" :: x :: rest.
Proof.
  unfold startswith, split. intros Hp.
  destruct s as [|c s]; [done|]. cbn [split_go]. rewrite Hp.
  destruct (split_go "ENV:" (String.length "ENV:" - 1) "" s) as [|x rest] eqn:E.
  - by apply split_go_nonempty in E.
  - eauto.
Qed.

Lemma prefix_env var : startswith "ENV:" ("ENV:" +:+ var) = true.
Proof.
  unfold startswith. rewrite !append_cons, append_nil_l. simpl.
  by destruct var.
Qed.

(** The name read off "ENV:" followed by [var], when [var] has no further
    "ENV:" inside. *)
Lemma split_env_name var :
  contains "ENV:" var = false ->
  split "ENV:" ("ENV:" +:+ var) !! 1%nat = Some var.
Proof.
  intros Hno. unfold split.
  pose proof (prefix_env var) as Hp. unfold startswith in Hp.
  rewrite !append_cons, append_nil_l in *. cbn [split_go]. rewrite Hp.
  cbn [split_go String.length Nat.sub].
  by rewrite (split_go_no_sep _ _ Hno), append_nil_l.
Qed.

(** ** Dictionaries *)

Lemma dict_get_set_eq {V} k (v : V) d : dict_get k (dict_set k v d) = Some v.
Proof.
  induction d as [|[k' v'] d IH]; simpl.
  - by rewrite String.eqb_refl.
  - destruct (String.eqb k k') eqn:E; simpl; by rewrite ?String.eqb_refl, ?E.
Qed.

Lemma dict_get_set_ne {V} k k' (v : V) d :
  k <> k' -> dict_get k (dict_set k' v d) = dict_get k d.
Proof.
  intros Hne. induction d as [|[k0 v0] d IH]; simpl.
  - by apply String.eqb_neq in Hne as ->.
  - destruct (String.eqb_spec k' k0) as [->|Hne0]; simpl.
    + by apply String.eqb_neq in Hne as ->.
    + by rewrite IH.
Qed.

Lemma dict_get_In {V} k (v : V) d : dict_get k d = Some v -> In (k, v) d.
Proof.
  induction d as [|[k' v'] d IH]; simpl; [done|].
  destruct (String.eqb_spec k k') as [->|Hne]; intros H.
  - simplify_eq. by left.
  - right. by apply IH.
Qed.

Lemma dict_mem_In {V} k (v : V) d : In (k, v) d -> dict_mem k d = true.
Proof.
  unfold dict_mem. induction d as [|[k' v'] d IH]; simpl; [done|].
  intros [Heq|Hin].
  - simplify_eq. by rewrite String.eqb_refl.
  - destruct (String.eqb k k'); [done|by apply IH].
Qed.

Lemma dict_get_None_keys {V} k (d : pydict V) :
  dict_get k d = None <-> ~ In k (dict_keys d).
Proof.
  unfold dict_keys. induction d as [|[k' v'] d IH]; simpl; [tauto|].
  destruct (String.eqb_spec k k') as [->|Hne]; split; intros H.
  - done.
  - exfalso. apply H. by left.
  - intros [Heq|Hin]; [by apply Hne|]. by apply IH in H.
  - apply IH. intros Hin. apply H. by right.
Qed.

End PyFacts.

(* ===================================================================== *)
(** * llm_loader.py: the LLM registry *)
(* ===================================================================== *)

Module LLMLoader.
Import Py Json.

(** An LLM client object.  [inst_id] is the identity of the Python object:
    every constructor call yields a fresh one. *)
Record Instance := mkInstance {
  inst_id : nat;
  inst_module : string;
  inst_class : string;
  inst_kwargs : pydict json
}.

(** What the loader does to the world outside it: an import of a module,
    and a call of a client's constructor made while loading the registry
    entry [ev_name] ([ev_ok] tells whether the constructor returned). *)
Inductive Event :=
| EvImport (module_name : string)
| EvConstruct (ev_name module_name class_name : string)
              (kwargs : pydict json) (ev_ok : bool).

Record World := mkWorld {
  trace : list Event;
  next_id : nat;
  stdout : list string
}.

(** The fields of an [LLMConfigLoader] object. *)
Record LLMConfigLoader := mkLoader {
  config_path : string;
  config : json;
  llm_instances : gmap string Instance
}.

(** Code that runs against the world: it may raise, and what it did to
    the world before raising stays done. *)
Definition M (A : Type) : Type := World -> result A * World.

#[export] Instance M_ret : MRet M := fun A a w => (Ok a, w).
#[export] Instance M_bind : MBind M :=
  fun A B f m w =>
    match m w with
    | (Ok a, w') => f a w'
    | (Raise e, w') => (Raise e, w')
    end.

Definition lift {A} (r : result A) : M A := fun w => (r, w).
Definition raise {A} (k : ExcKind) (msg : string) : M A :=
  fun w => (Raise (mkExc k msg), w).
Definition emit (ev : Event) : M unit :=
  fun w => (Ok tt, mkWorld (trace w ++ [ev]) (next_id w) (stdout w)).
Definition print (line : string) : M unit :=
  fun w => (Ok tt, mkWorld (trace w) (next_id w) (stdout w ++ [line])).
Definition fresh_id : M nat :=
  fun w => (Ok (next_id w), mkWorld (trace w) (S (next_id w)) (stdout w)).
Arguments print : simpl never.

(** The number of constructor calls that returned an object for the
    registry entry [name]. *)
Definition constructed (name : string) (ev : Event) : bool :=
  match ev with
  | EvConstruct n _ _ _ ok => String.eqb n name && ok
  | EvImport _ => false
  end.

Definition times_constructed (name : string) (w : World) : nat :=
  length (List.filter (constructed name) (trace w)).

Section Loader.

(** [os.getenv] *)
Variable getenv : string -> option string.
(** [importlib.import_module m]: [None] when the import succeeds, the
    exception it raises otherwise. *)
Variable import_module : string -> option Exc.
(** Whether the imported module [m] has an attribute [c]. *)
Variable module_has : string -> string -> bool.
(** The constructor of class [c] of module [m] on keyword arguments:
    [None] when it returns an object, the exception it raises otherwise. *)
Variable class_init : string -> string -> pydict json -> option Exc.
(** [str(v)] of a JSON value that is not a string, as an f-string prints it. *)
Variable repr : json -> string.

Definition fmt (v : json) : string :=
  match v with JStr s => s | _ => repr v end.

(** [_resolve_env_value] *)
Definition _resolve_env_value (value : json) : result json :=
  match value with
  | JStr s =>
      if startswith "ENV:" s then
        match split "ENV:" s !! 1%nat with
        | None => Raise (mkExc IndexError "list index out of range")
        | Some env_var =>
            match getenv env_var with
            | None =>
                Raise (mkExc ValueError
                         ("Environment variable " +:+ env_var +:+ " not found"))
            | Some env_value => Ok (JStr env_value)
            end
        end
      else Ok value
  | _ => Ok value
  end.

(** The body of the loop of [_resolve_config_values] on one value, with
    the recursive call on a nested mapping unfolded into it: [resolve_value
    (JDict d)] runs the loop of [_resolve_config_values] on [d] (see
    [resolve_value_dict]). *)
Fixpoint resolve_value (value : json) : result json :=
  match value with
  | JDict d =>
      JDict <$>
      (fix loop (items : pydict json) (resolved : pydict json)
         : result (pydict json) :=
         match items with
         | [] => Ok resolved
         | (key, v) :: rest =>
             r ← resolve_value v;
             loop rest (dict_set key r resolved)
         end) d []
  | JStr _ => _resolve_env_value value
  | _ => Ok value
  end.

(** The loop of [_resolve_config_values]: [resolved] is the dictionary
    built so far. *)
Fixpoint resolve_loop (items : pydict json) (resolved : pydict json)
  : result (pydict json) :=
  match items with
  | [] => Ok resolved
  | (key, v) :: rest =>
      r ← resolve_value v;
      resolve_loop rest (dict_set key r resolved)
  end.

(** [_resolve_config_values] *)
Definition _resolve_config_values (config : pydict json)
  : result (pydict json) :=
  resolve_loop config [].

(** [llm_name in llms_config] followed by [llms_config[llm_name]], for
    whatever JSON value the registry holds under "llms". *)
Definition registry_entry (llm_name : string) (llms_config : json)
  : result json :=
  let not_found :=
    Raise (mkExc ValueError
             ("LLM '" +:+ llm_name +:+ "' not found in configuration")) in
  match llms_config with
  | JDict d =>
      match dict_get llm_name d with
      | Some entry => Ok entry
      | None => not_found
      end
  | JList l =>
      if existsb (json_eqb_str llm_name) l
      then Raise (mkExc TypeError "list indices must be integers or slices, not str")
      else not_found
  | JStr s =>
      if contains llm_name s
      then Raise (mkExc TypeError "string indices must be integers, not 'str'")
      else not_found
  | _ => Raise (mkExc TypeError "argument is not iterable")
  end.

Definition is_import_or_attribute_error (e : Exc) : bool :=
  match exc_kind e with
  | ImportError | AttributeError => true
  | _ => false
  end.

Definition could_not_import (class_name module_name : json) (why : string)
  : Exc :=
  mkExc ImportError
    ("Could not import " +:+ fmt class_name +:+ " from " +:+
     fmt module_name +:+ ": " +:+ why).

(** The [try] block of [load_llm]: import the module, then read the class
    off it.  An [ImportError] or [AttributeError] is turned into an
    [ImportError]; anything else goes through. *)
Definition import_class (module_name class_name : json)
  : M (string * string) :=
  match module_name with
  | JStr m =>
      _ ← emit (EvImport m);
      match import_module m with
      | Some e =>
          if is_import_or_attribute_error e
          then lift (Raise (could_not_import class_name module_name (exc_str e)))
          else lift (Raise e)
      | None =>
          match class_name with
          | JStr c =>
              if module_has m c then mret (m, c)
              else lift (Raise (could_not_import class_name module_name
                                  ("module '" +:+ m +:+ "' has no attribute '"
                                   +:+ c +:+ "'")))
          | _ => raise TypeError "attribute name must be string"
          end
      end
  | _ =>
      lift (Raise (could_not_import class_name module_name
                     "object has no attribute 'startswith'"))
  end.

(** [load_llm] past the cache test: everything up to the constructor
    call. *)
Definition load_llm_fresh (llm_name : string) (cfg : json) : M Instance :=
  llms_config ← lift (json_get "llms" (JDict []) cfg);
  llm_config ← lift (registry_entry llm_name llms_config);
  module_name ← lift (json_get "import_module" JNull llm_config);
  class_name ← lift (json_get "import_class" JNull llm_config);
  if negb (truthy module_name) || negb (truthy class_name) then
    raise ValueError ("Missing import_module or import_class for " +:+ llm_name)
  else
    mc ← import_class module_name class_name;
    kw ← lift (json_get "config" (JDict []) llm_config);
    items ← lift (json_items kw);
    resolved_config ← lift (_resolve_config_values items);
    match class_init mc.1 mc.2 resolved_config with
    | Some e =>
        _ ← emit (EvConstruct llm_name mc.1 mc.2 resolved_config false);
        lift (Raise e)
    | None =>
        _ ← emit (EvConstruct llm_name mc.1 mc.2 resolved_config true);
        i ← fresh_id;
        mret (mkInstance i mc.1 mc.2 resolved_config)
    end.

(** [load_llm]: the method on a loader object; it returns the result, the
    loader after the call and the world after the call. *)
Definition load_llm (llm_name : string) (self : LLMConfigLoader) (w : World)
  : result Instance * LLMConfigLoader * World :=
  match llm_instances self !! llm_name with
  | Some llm_instance => (Ok llm_instance, self, w)
  | None =>
      match load_llm_fresh llm_name (config self) w with
      | (Ok llm_instance, w') =>
          (Ok llm_instance,
           mkLoader (config_path self) (config self)
                    (<[llm_name := llm_instance]> (llm_instances self)),
           w')
      | (Raise e, w') => (Raise e, self, w')
      end
  end.

(** The test [llm_config.get("load_on_init", "False").lower() == "true"]. *)
Definition load_on_init (llm_config : json) : result bool :=
  flag ← json_get "load_on_init" (JStr "False") llm_config;
  match flag with
  | JStr s => Ok (String.eqb (lower s) "true")
  | _ => Raise (mkExc AttributeError "object has no attribute 'lower'")
  end.

(** The two lines [_load_initial_llms] prints. *)
Definition loaded_line (name : string) : string := "✓ Loaded LLM: " +:+ name.
Definition failed_line (name : string) (e : Exc) : string :=
  "✗ Failed to load LLM " +:+ name +:+ ": " +:+ exc_str e.

(** The loop of [_load_initial_llms] over the items of the registry. *)
Fixpoint load_initial_loop (items : pydict json) (self : LLMConfigLoader)
  (w : World) : result unit * LLMConfigLoader * World :=
  match items with
  | [] => (Ok tt, self, w)
  | (llm_name, llm_config) :: rest =>
      match load_on_init llm_config with
      | Raise e => (Raise e, self, w)
      | Ok false => load_initial_loop rest self w
      | Ok true =>
          match load_llm llm_name self w with
          | (Ok _, self', w') =>
              load_initial_loop rest self'
                (print (loaded_line llm_name) w').2
          | (Raise e, self', w') =>
              load_initial_loop rest self'
                (print (failed_line llm_name e) w').2
          end
      end
  end.

(** [_load_initial_llms] *)
Definition _load_initial_llms (self : LLMConfigLoader) (w : World)
  : result unit * LLMConfigLoader * World :=
  match json_get "llms" (JDict []) (config self) with
  | Raise e => (Raise e, self, w)
  | Ok llms_config =>
      match json_items llms_config with
      | Raise e => (Raise e, self, w)
      | Ok items => load_initial_loop items self w
      end
  end.

(** [LLMConfigLoader.__init__].  [loaded] is what [_load_config] yields:
    the parsed file, or the exception of [open] or [json.load]. *)
Definition __init__ (path : string) (loaded : result json) (w : World)
  : result LLMConfigLoader * World :=
  match loaded with
  | Raise e => (Raise e, w)
  | Ok cfg =>
      match _load_initial_llms (mkLoader path cfg ∅) w with
      | (Ok _, self, w') => (Ok self, w')
      | (Raise e, _, w') => (Raise e, w')
      end
  end.

(** A loader's lifetime after its creation: a sequence of [load_llm]
    calls (the accessor [get_manager_llm] reaches the cache through
    [load_llm] too). *)
Fixpoint run_loads (names : list string) (self : LLMConfigLoader) (w : World)
  : LLMConfigLoader * World :=
  match names with
  | [] => (self, w)
  | n :: rest =>
      match load_llm n self w with
      | (_, self', w') => run_loads rest self' w'
      end
  end.

(** [get_llm_config] *)
Definition get_llm_config (llm_name : string) (self : LLMConfigLoader)
  : result json :=
  llms_config ← json_get "llms" (JDict []) (config self);
  registry_entry llm_name llms_config.

(** [list_available_llms] *)
Definition list_available_llms (self : LLMConfigLoader)
  : result (list string) :=
  llms_config ← json_get "llms" (JDict []) (config self);
  match llms_config with
  | JDict d => Ok (dict_keys d)
  | _ => Raise (mkExc AttributeError "object has no attribute 'keys'")
  end.

(** [load_llm] called with a name that is not a string, which its
    signature rules out: what it does then is left open. *)
Variable load_llm_untyped :
  json -> LLMConfigLoader -> World -> result Instance * LLMConfigLoader * World.

(** [get_manager_llm] *)
Definition get_manager_llm (self : LLMConfigLoader) (w : World)
  : result Instance * LLMConfigLoader * World :=
  match json_get "managerLLM" JNull (config self) with
  | Raise e => (Raise e, self, w)
  | Ok manager_llm_name =>
      if negb (truthy manager_llm_name) then
        (Raise (mkExc ValueError "No managerLLM specified in configuration"),
         self, w)
      else
        match manager_llm_name with
        | JStr name => load_llm name self w
        | _ => load_llm_untyped manager_llm_name self w
        end
  end.

(** ** What the properties are stated with *)

(** Whether the cache holds an object for [name]. *)
Definition is_cached (name : string) (self : LLMConfigLoader) : bool :=
  match llm_instances self !! name with Some _ => true | None => false end.

(** The cache and the trace agree: since the world [w0] in which the
    loader was created, the entry [name] has been constructed once if it is
    cached and not at all otherwise. *)
Definition cache_counts (w0 : World) (self : LLMConfigLoader) (w : World)
  : Prop :=
  forall name,
    times_constructed name w =
    (times_constructed name w0 +
     (if is_cached name self then 1 else 0))%nat.

(** The registry as [_load_initial_llms] reads it without raising: the
    configuration is a mapping, "llms" is absent or a mapping of mappings,
    and every "load_on_init" that is present is a string. *)
Definition entry_ok (entry : json) : bool :=
  match entry with
  | JDict d =>
      match dict_get "load_on_init" d with
      | None | Some (JStr _) => true
      | Some _ => false
      end
  | _ => false
  end.

Definition registry_items (cfg : json) : pydict json :=
  match cfg with
  | JDict d =>
      match dict_get "llms" d with
      | Some (JDict items) => items
      | _ => []
      end
  | _ => []
  end.

Definition registry_ok (cfg : json) : bool :=
  match cfg with
  | JDict d =>
      match dict_get "llms" d with
      | None => true
      | Some (JDict items) => forallb (fun kv => entry_ok kv.2) items
      | Some _ => false
      end
  | _ => false
  end.

(** What [_load_initial_llms] leaves behind for a flagged entry: the
    object in the cache and the success line, or the failure line. *)
Definition attempted (name : string) (self : LLMConfigLoader) (w : World)
  : Prop :=
  (is_cached name self = true /\ In (loaded_line name) (stdout w)) \/
  (exists e, In (failed_line name e) (stdout w)).

(** ** Properties of the loader *)

Create HintDb loader_ops.
#[local] Hint Unfold mbind mret M_bind M_ret lift raise emit print fresh_id
  : loader_ops.

Lemma times_constructed_emit name ev w :
  times_constructed name (emit ev w).2 =
  (times_constructed name w + (if constructed name ev then 1 else 0))%nat.
Proof.
  unfold times_constructed, emit; simpl.
  rewrite List.filter_app, length_app; simpl.
  destruct (constructed name ev); simpl; lia.
Qed.

Lemma import_class_trace name m c w r w' :
  import_class m c w = (r, w') ->
  times_constructed name w' = times_constructed name w /\
  next_id w' = next_id w /\ stdout w' = stdout w.
Proof.
  unfold import_class, times_constructed.
  autounfold with loader_ops.
  intros H.
  repeat case_match; simplify_eq/=;
    rewrite ?List.filter_app, ?length_app; simpl; auto with lia.
Qed.

(** A load that misses the cache calls the constructor of its own entry
    only, and counts one completed construction exactly when it returns. *)
Lemma load_llm_fresh_count name n cfg w r w' :
  load_llm_fresh n cfg w = (r, w') ->
  times_constructed name w' =
  (times_constructed name w + (if is_ok r && String.eqb n name then 1 else 0))%nat.
Proof.
  unfold load_llm_fresh.
  autounfold with loader_ops.
  intros H.
  destruct (json_get "llms" _ cfg) as [llms|e]; simplify_eq/=; [|lia].
  destruct (registry_entry n llms) as [entry|e]; simplify_eq/=; [|lia].
  destruct (json_get "import_module" _ entry) as [mn|e]; simplify_eq/=; [|lia].
  destruct (json_get "import_class" _ entry) as [cn|e]; simplify_eq/=; [|lia].
  destruct (negb (truthy mn) || negb (truthy cn)); simplify_eq/=; [lia|].
  destruct (import_class mn cn w) as [[[m c]|e] w1] eqn:Himp;
    apply (import_class_trace name) in Himp as (Hc & _ & _);
    simplify_eq/=; [|lia].
  destruct (json_get "config" _ entry) as [kw|e]; simplify_eq/=; [|lia].
  destruct (json_items kw) as [items|e]; simplify_eq/=; [|lia].
  destruct (_resolve_config_values items) as [resolved|e]; simplify_eq/=; [|lia].
  destruct (class_init m c resolved) as [e|]; simplify_eq/=;
    unfold times_constructed in *; simpl;
    rewrite List.filter_app, length_app; simpl;
    rewrite ?andb_false_r, ?andb_true_r; simpl;
    destruct (String.eqb n name); simpl; lia.
Qed.

Lemma load_llm_cache_counts w0 n self w r self' w' :
  cache_counts w0 self w ->
  load_llm n self w = (r, self', w') ->
  cache_counts w0 self' w'.
Proof.
  intros Hinv Hload name. unfold load_llm in Hload.
  pose proof (Hinv name) as Hname. unfold is_cached in *.
  destruct (llm_instances self !! n) as [i|] eqn:Hn.
  - by simplify_eq.
  - destruct (load_llm_fresh n (config self) w) as [[i|e] w1] eqn:Hf;
      apply (load_llm_fresh_count name) in Hf; simplify_eq/=.
    + rewrite Hf, Hname.
      destruct (String.eqb_spec n name) as [->|Hne].
      * rewrite lookup_insert_eq, Hn. lia.
      * rewrite lookup_insert_ne by done. lia.
    + rewrite Hf, Hname. lia.
Qed.

Lemma cache_counts_stdout w0 self w line :
  cache_counts w0 self w -> cache_counts w0 self (print line w).2.
Proof. intros H name. apply H. Qed.

Lemma load_initial_loop_cache_counts w0 items :
  forall self w r self' w',
    cache_counts w0 self w ->
    load_initial_loop items self w = (r, self', w') ->
    cache_counts w0 self' w'.
Proof.
  induction items as [|[n entry] rest IH]; intros self w r self' w' Hinv Hrun;
    simpl in Hrun.
  - by simplify_eq.
  - destruct (load_on_init entry) as [[|]|e]; [| by eauto | by simplify_eq].
    destruct (load_llm n self w) as [[[i|e] self1] w1] eqn:Hload;
      (eapply IH; [|exact Hrun]);
      apply cache_counts_stdout; eapply load_llm_cache_counts; eauto.
Qed.

Lemma init_cache_counts path loaded w0 self w :
  __init__ path loaded w0 = (Ok self, w) -> cache_counts w0 self w.
Proof.
  unfold __init__, _load_initial_llms. intros H.
  destruct loaded as [cfg|e]; [|by simplify_eq]. simpl in H.
  destruct (json_get "llms" _ cfg) as [llms|e]; [|by simplify_eq].
  destruct (json_items llms) as [items|e]; [|by simplify_eq].
  destruct (load_initial_loop items _ w0) as [[[[]|e] self1] w1] eqn:Hrun;
    simplify_eq.
  eapply load_initial_loop_cache_counts; [|exact Hrun].
  intros name. unfold is_cached. simpl. rewrite lookup_empty. lia.
Qed.

Lemma run_loads_cache_counts w0 names :
  forall self w self' w',
    cache_counts w0 self w ->
    run_loads names self w = (self', w') ->
    cache_counts w0 self' w'.
Proof.
  induction names as [|n rest IH]; intros self w self' w' Hinv Hrun;
    simpl in Hrun.
  - by simplify_eq.
  - destruct (load_llm n self w) as [[r self1] w1] eqn:Hload.
    eapply IH; [|exact Hrun]. eapply load_llm_cache_counts; eauto.
Qed.

(** A load that returned leaves its object in the cache. *)
Lemma load_llm_cached n self w i self' w' :
  load_llm n self w = (Ok i, self', w') ->
  llm_instances self' !! n = Some i.
Proof.
  unfold load_llm. intros H.
  destruct (llm_instances self !! n) as [j|] eqn:Hn; [by simplify_eq|].
  destruct (load_llm_fresh n (config self) w) as [[j|e] w1]; simplify_eq/=.
  by rewrite lookup_insert_eq.
Qed.

(** C3.  Take any loader as [__init__] leaves it, any later sequence of
    [load_llm] calls, and any registry name: over the loader's whole life the
    entry's constructor has returned an object at most once, and when a
    call [load_llm name] returns the object [i], every further call with
    that name returns the same [i] (same identity) and changes neither the
    loader nor the world: no import, no constructor call. *)
Theorem load_llm_memoized path loaded w0 names name :
  match __init__ path loaded w0 with
  | (Raise _, _) => True
  | (Ok self0, w1) =>
      let '(self, w) := run_loads names self0 w1 in
      (times_constructed name w <= times_constructed name w0 + 1)%nat /\
      match load_llm name self w with
      | (Ok i, self', w') =>
          (times_constructed name w' <= times_constructed name w0 + 1)%nat /\
          forall w'', load_llm name self' w'' = (Ok i, self', w'')
      | (Raise _, _, _) => True
      end
  end.
Proof.
  destruct (__init__ path loaded w0) as [[self0|e] w1] eqn:Hinit; [|done].
  apply init_cache_counts in Hinit.
  destruct (run_loads names self0 w1) as [self w] eqn:Hrun.
  eapply run_loads_cache_counts in Hrun; [|exact Hinit].
  split.
  { rewrite (Hrun name). destruct (is_cached name self); lia. }
  destruct (load_llm name self w) as [[[i|e] self'] w'] eqn:Hload; [|done].
  split.
  { eapply load_llm_cache_counts in Hrun; [|exact Hload].
    rewrite (Hrun name). destruct (is_cached name self'); lia. }
  intros w''. apply load_llm_cached in Hload.
  unfold load_llm. by rewrite Hload.
Qed.

(** ** Eager loading *)

Lemma entry_ok_flag entry :
  entry_ok entry = true -> exists b, load_on_init entry = Ok b.
Proof.
  destruct entry as [| | | | |l|d]; try done. unfold load_on_init; simpl.
  destruct (dict_get "load_on_init" d) as [[]|]; try done; simpl; eauto.
Qed.

Lemma load_llm_keeps_cache n self w r self' w' name :
  load_llm n self w = (r, self', w') ->
  is_cached name self = true -> is_cached name self' = true.
Proof.
  unfold load_llm, is_cached. intros H.
  destruct (llm_instances self !! n) as [i|] eqn:Hn; [by simplify_eq|].
  destruct (load_llm_fresh n (config self) w) as [[i|e] w1]; simplify_eq/=;
    [|done].
  destruct (decide (n = name)) as [->|Hne].
  - by rewrite lookup_insert_eq.
  - by rewrite lookup_insert_ne.
Qed.

Lemma load_llm_fresh_stdout n cfg w r w' :
  load_llm_fresh n cfg w = (r, w') -> stdout w' = stdout w.
Proof.
  unfold load_llm_fresh.
  autounfold with loader_ops.
  intros H.
  destruct (json_get "llms" _ cfg) as [llms|e]; simplify_eq/=; [|done].
  destruct (registry_entry n llms) as [entry|e]; simplify_eq/=; [|done].
  destruct (json_get "import_module" _ entry) as [mn|e]; simplify_eq/=; [|done].
  destruct (json_get "import_class" _ entry) as [cn|e]; simplify_eq/=; [|done].
  destruct (negb (truthy mn) || negb (truthy cn)); simplify_eq/=; [done|].
  destruct (import_class mn cn w) as [[[m c]|e] w1] eqn:Himp;
    apply (import_class_trace n) in Himp as (_ & _ & Hout);
    simplify_eq/=; [|done].
  destruct (json_get "config" _ entry) as [kw|e]; simplify_eq/=; [|done].
  destruct (json_items kw) as [items|e]; simplify_eq/=; [|done].
  destruct (_resolve_config_values items) as [resolved|e]; simplify_eq/=;
    [|done].
  destruct (class_init m c resolved) as [e|]; by simplify_eq/=.
Qed.

Lemma load_llm_stdout n self w r self' w' :
  load_llm n self w = (r, self', w') -> stdout w' = stdout w.
Proof.
  unfold load_llm. intros H.
  destruct (llm_instances self !! n) as [i|]; [by simplify_eq|].
  destruct (load_llm_fresh n (config self) w) as [[i|e] w1] eqn:Hf;
    apply load_llm_fresh_stdout in Hf; by simplify_eq/=.
Qed.

(** The loop never raises on a well-formed registry, keeps what is cached
    and printed, and attempts every flagged entry. *)
Lemma load_initial_loop_total items :
  forallb (fun kv => entry_ok kv.2) items = true ->
  forall self w,
  exists self' w',
    load_initial_loop items self w = (Ok tt, self', w') /\
    (forall n, is_cached n self = true -> is_cached n self' = true) /\
    (forall line, In line (stdout w) -> In line (stdout w')) /\
    (forall name entry,
        In (name, entry) items -> load_on_init entry = Ok true ->
        attempted name self' w').
Proof.
  induction items as [|[n entry] rest IH]; intros Hok self w; simpl in *.
  - exists self, w. repeat split; auto. intros ? ? [].
  - apply andb_true_iff in Hok as [Hentry Hrest].
    destruct (entry_ok_flag _ Hentry) as [b Hb]. rewrite Hb.
    destruct b.
    + destruct (load_llm n self w) as [[[i|e] self1] w1] eqn:Hload.
      * destruct (IH Hrest self1 (print (loaded_line n) w1).2)
          as (self' & w' & Hrun & Hcache & Hout & Hall).
        exists self', w'. split; [exact Hrun|].
        repeat split.
        -- intros m Hm. apply Hcache.
           eapply load_llm_keeps_cache; eauto.
        -- intros line Hl. apply Hout. unfold print; simpl.
           apply in_or_app. left.
           by rewrite (load_llm_stdout _ _ _ _ _ _ Hload).
        -- intros name entry' [Heq|Hin] Hflag; [|by eauto].
           simplify_eq. left. split.
           ++ apply Hcache. unfold is_cached.
              by rewrite (load_llm_cached _ _ _ _ _ _ Hload).
           ++ apply Hout. unfold print; simpl.
              apply in_or_app. right. by left.
      * destruct (IH Hrest self1 (print (failed_line n e) w1).2)
          as (self' & w' & Hrun & Hcache & Hout & Hall).
        exists self', w'. split; [exact Hrun|].
        repeat split.
        -- intros m Hm. apply Hcache.
           eapply load_llm_keeps_cache; eauto.
        -- intros line Hl. apply Hout. unfold print; simpl.
           apply in_or_app. left.
           by rewrite (load_llm_stdout _ _ _ _ _ _ Hload).
        -- intros name entry' [Heq|Hin] Hflag; [|by eauto].
           simplify_eq. right. exists e.
           apply Hout. unfold print; simpl.
           apply in_or_app. right. by left.
    + destruct (IH Hrest self w) as (self' & w' & Hrun & Hcache & Hout & Hall).
      exists self', w'. rewrite Hrun. repeat split; auto.
      intros name entry' [Heq|Hin] Hflag; [|by eauto].
      simplify_eq. congruence.
Qed.

(** A load changes the cache at its own name only, and never the
    configuration. *)
Lemma load_llm_other_names n self w r self' w' name :
  load_llm n self w = (r, self', w') ->
  config self' = config self /\
  (n <> name -> llm_instances self' !! name = llm_instances self !! name).
Proof.
  unfold load_llm. intros H.
  destruct (llm_instances self !! n) as [i|] eqn:Hn; [by simplify_eq|].
  destruct (load_llm_fresh n (config self) w) as [[i|e] w1]; simplify_eq/=;
    [|done].
  split; [done|]. intros Hne. by rewrite lookup_insert_ne.
Qed.

Section FlaggedEntry.

(** One entry of the registry of [cfg] that is flagged, names a class
    that can be imported, and whose constructor arguments resolve. *)
Variable cfg : json.
Variable items : pydict json.
Variables name s m c : string.
Variables fields kwargs resolved : pydict json.
Hypothesis Hllms : json_get "llms" (JDict []) cfg = Ok (JDict items).
Hypothesis Hentry : dict_get name items = Some (JDict fields).
Hypothesis Hflag : dict_get "load_on_init" fields = Some (JStr s).
Hypothesis Htrue : lower s = "true".
Hypothesis Hm : dict_get "import_module" fields = Some (JStr m).
Hypothesis Hm0 : m <> "".
Hypothesis Hc : dict_get "import_class" fields = Some (JStr c).
Hypothesis Hc0 : c <> "".
Hypothesis Himp : import_module m = None.
Hypothesis Hhas : module_has m c = true.
Hypothesis Hkw : json_get "config" (JDict []) (JDict fields) = Ok (JDict kwargs).
Hypothesis Hres : _resolve_config_values kwargs = Ok resolved.

Lemma flagged_entry_flag : load_on_init (JDict fields) = Ok true.
Proof.
  unfold load_on_init. simpl. rewrite Hflag. simpl. by rewrite Htrue.
Qed.

(** Loading the entry when it is not cached: the outcome is the
    constructor's. *)
Lemma load_llm_flagged_entry self w :
  config self = cfg ->
  llm_instances self !! name = None ->
  match class_init m c resolved with
  | None =>
      exists i w',
        load_llm name self w =
          (Ok i,
           mkLoader (config_path self) (config self)
             (<[name := i]> (llm_instances self)),
           w')
        /\ inst_module i = m /\ inst_class i = c /\ inst_kwargs i = resolved
  | Some e => exists w', load_llm name self w = (Raise e, self, w')
  end.
Proof.
  intros Hcfg Hmiss.
  unfold load_llm, load_llm_fresh, import_class. rewrite Hmiss, Hcfg.
  autounfold with loader_ops. rewrite Hllms. simpl. rewrite Hentry. simpl.
  rewrite Hm, Hc. simpl.
  apply String.eqb_neq in Hm0, Hc0. rewrite Hm0, Hc0. simpl.
  rewrite Himp, Hhas. simpl.
  simpl in Hkw. injection Hkw as Hkw. rewrite Hkw. simpl. rewrite Hres.
  simpl. destruct (class_init m c resolved) as [e|]; simpl; eauto 10.
Qed.

(** What the loop leaves for the entry. *)
Definition flagged_entry_done (self : LLMConfigLoader) (w : World) : Prop :=
  match class_init m c resolved with
  | None =>
      exists i,
        llm_instances self !! name = Some i
        /\ inst_module i = m /\ inst_class i = c /\ inst_kwargs i = resolved
        /\ In (loaded_line name) (stdout w)
  | Some e =>
      llm_instances self !! name = None
      /\ In (failed_line name e) (stdout w)
  end.

Lemma load_initial_loop_flagged_entry rest :
  forallb (fun kv => entry_ok kv.2) rest = true ->
  forall self w,
    config self = cfg ->
    exists self' w',
      load_initial_loop rest self w = (Ok tt, self', w')
      /\ (forall line, In line (stdout w) -> In line (stdout w'))
      /\ (forall i, llm_instances self !! name = Some i ->
                    llm_instances self' !! name = Some i)
      /\ (llm_instances self !! name = None ->
          (is_ok (match class_init m c resolved with
                  | None => Ok tt | Some e => Raise e end) = false ->
           llm_instances self' !! name = None)
          /\ (In (name, JDict fields) rest -> flagged_entry_done self' w')).
Proof.
  induction rest as [|[n entry] rest IH]; intros Hok self w Hcfg; simpl in *.
  - exists self, w. repeat split; auto. intros [].
  - apply andb_true_iff in Hok as [Hentry_ok Hrest].
    destruct (entry_ok_flag _ Hentry_ok) as [b Hb]. rewrite Hb.
    destruct b.
    + destruct (load_llm n self w) as [[r self1] w1] eqn:Hload.
      pose proof (load_llm_other_names _ _ _ _ _ _ name Hload) as [Hcfg1 Hother].
      pose proof (load_llm_stdout _ _ _ _ _ _ Hload) as Hout1.
      assert (Hcfg1' : config self1 = cfg) by congruence.
      set (line := match r with
                   | Ok _ => loaded_line n
                   | Raise e => failed_line n e
                   end).
      destruct (IH Hrest self1 (print line w1).2 Hcfg1')
        as (self' & w' & Hrun & Hout & Hkeep & Hnew).
      exists self', w'.
      split; [by destruct r|].
      assert (Hprinted : In line (stdout w')).
      { apply Hout. unfold print; simpl. apply in_or_app. right. by left. }
      split.
      { intros l Hl. apply Hout. unfold print; simpl.
        apply in_or_app. left. by rewrite Hout1. }
      destruct (decide (n = name)) as [->|Hne].
      * split.
        { intros i Hi. apply Hkeep. unfold load_llm in Hload.
          rewrite Hi in Hload. by simplify_eq. }
        intros Hmiss.
        pose proof (load_llm_flagged_entry self w Hcfg Hmiss) as Hone.
        unfold flagged_entry_done.
        destruct (class_init m c resolved) as [e|].
        -- destruct Hone as (w1' & Hone). rewrite Hone in Hload.
           simplify_eq. destruct (Hnew Hmiss) as [Hnone _].
           split; [done|]. intros _. split; [by apply Hnone|done].
        -- destruct Hone as (i & w1' & Hone & Hi). rewrite Hone in Hload.
           simplify_eq. split; [done|]. intros _. exists i.
           split; [|by destruct Hi as (? & ? & ?)].
           apply Hkeep. simpl. by rewrite lookup_insert_eq.
      * specialize (Hother Hne). split.
        { intros i Hi. apply Hkeep. by rewrite Hother. }
        intros Hmiss. rewrite <- Hother in Hmiss.
        destruct (Hnew Hmiss) as [Hnone Hdone]. split; [done|].
        intros [Heq|Hin]; [by simplify_eq|by apply Hdone].
    + destruct (IH Hrest self w Hcfg) as (self' & w' & Hrun & Hout & Hkeep & Hnew).
      exists self', w'. rewrite Hrun. repeat split; auto.
      * by apply Hnew.
      * intros [Heq|Hin]; [|by apply Hnew].
        simplify_eq. rewrite flagged_entry_flag in Hb. done.
Qed.

End FlaggedEntry.

(** Eager loading, for a registry whose flags are strings.  [__init__]
    returns a loader whatever the imports, the constructors and the
    environment do.  By then every entry whose "load_on_init" spells
    "true" in some case has been attempted: it is cached and reported as
    loaded, or its failure is reported.  And the attempt is a real one: for
    a flagged entry whose class imports and whose arguments resolve, the
    cache holds an object of that class, made from the resolved arguments
    by the one constructor call of the entry, when the constructor
    returns; when the constructor raises, the entry is not cached, no
    construction is counted for it and the failure is reported with the
    constructor's text. *)
Theorem init_constructs_flagged_entries path cfg w :
  registry_ok cfg = true ->
  exists self w',
    __init__ path (Ok cfg) w = (Ok self, w')
    /\ (forall name fields s,
          In (name, JDict fields) (registry_items cfg) ->
          dict_get "load_on_init" fields = Some (JStr s) ->
          lower s = "true" ->
          attempted name self w')
    /\ (forall name fields s m c kwargs resolved,
          dict_get name (registry_items cfg) = Some (JDict fields) ->
          dict_get "load_on_init" fields = Some (JStr s) ->
          lower s = "true" ->
          dict_get "import_module" fields = Some (JStr m) -> m <> "" ->
          dict_get "import_class" fields = Some (JStr c) -> c <> "" ->
          import_module m = None ->
          module_has m c = true ->
          json_get "config" (JDict []) (JDict fields) = Ok (JDict kwargs) ->
          _resolve_config_values kwargs = Ok resolved ->
          match class_init m c resolved with
          | None =>
              exists i,
                llm_instances self !! name = Some i
                /\ inst_module i = m /\ inst_class i = c
                /\ inst_kwargs i = resolved
                /\ times_constructed name w' = S (times_constructed name w)
                /\ In (loaded_line name) (stdout w')
          | Some e =>
              llm_instances self !! name = None
              /\ times_constructed name w' = times_constructed name w
              /\ In (failed_line name e) (stdout w')
          end).
Proof.
  intros Hok.
  assert (Hshape : exists d, cfg = JDict d /\
            forallb (fun kv => entry_ok kv.2) (registry_items cfg) = true /\
            json_get "llms" (JDict []) cfg = Ok (JDict (registry_items cfg))).
  { destruct cfg as [| | | | |l|d]; try done. exists d. split; [done|].
    simpl in *. destruct (dict_get "llms" d) as [[| | | | |l|items]|]; done. }
  destruct Hshape as (d & -> & Hitems & Hllms).
  set (items := registry_items (JDict d)) in *.
  set (self0 := mkLoader path (JDict d) ∅).
  destruct (load_initial_loop_total items Hitems self0 w)
    as (self & w' & Hrun & _ & _ & Hall).
  assert (Hinit : __init__ path (Ok (JDict d)) w = (Ok self, w')).
  { unfold __init__, _load_initial_llms. cbn [config]. rewrite Hllms.
    cbn [json_items]. fold self0. by rewrite Hrun. }
  exists self, w'. split; [exact Hinit|]. split.
  - intros name fields s Hin Hflag Htrue. apply (Hall name (JDict fields) Hin).
    unfold load_on_init. simpl. rewrite Hflag. simpl. by rewrite Htrue.
  - intros name fields s m c kwargs resolved
      Hentry Hflag Htrue Hm Hm0 Hc Hc0 Himp Hhas Hkw Hres.
    destruct (load_initial_loop_flagged_entry (JDict d) items name s m c fields
                kwargs resolved Hllms Hentry Hflag Htrue Hm Hm0 Hc Hc0 Himp
                Hhas Hkw Hres items Hitems self0 w eq_refl)
      as (self1 & w1 & Hrun1 & _ & _ & Hnew).
    rewrite Hrun in Hrun1. simplify_eq.
    destruct (Hnew (lookup_empty _)) as [_ Hdone].
    specialize (Hdone (PyFacts.dict_get_In _ _ _ Hentry)).
    pose proof (init_cache_counts _ _ _ _ _ Hinit name) as Hcount.
    unfold flagged_entry_done in Hdone. unfold is_cached in Hcount.
    destruct (class_init m c resolved) as [e|].
    + destruct Hdone as [Hnone Hline]. rewrite Hnone in Hcount.
      split; [done|]. split; [lia|done].
    + destruct Hdone as (i & Hi & Him & Hic & Hik & Hline).
      rewrite Hi in Hcount. exists i. repeat split; try done. lia.
Qed.




(** ** Resolution of environment references *)

(** [resolve_value] on a mapping is the loop of [_resolve_config_values]. *)
Lemma resolve_value_dict d :
  resolve_value (JDict d) = JDict <$> _resolve_config_values d.
Proof. reflexivity. Qed.

(** A reference whose name has no "ENV:" inside reads that variable. *)
Lemma resolve_env_reference var :
  contains "ENV:" var = false ->
  _resolve_env_value (JStr ("ENV:" +:+ var)) =
  match getenv var with
  | Some env_value => Ok (JStr env_value)
  | None =>
      Raise (mkExc ValueError ("Environment variable " +:+ var +:+ " not found"))
  end.
Proof.
  intros Hno. unfold _resolve_env_value.
  by rewrite PyFacts.prefix_env, (PyFacts.split_env_name _ Hno).
Qed.

(** A string that does not start with "ENV:" is returned as it is. *)
Lemma resolve_env_plain s :
  startswith "ENV:" s = false -> _resolve_env_value (JStr s) = Ok (JStr s).
Proof. intros H. unfold _resolve_env_value. by rewrite H. Qed.

(** Whatever [_resolve_env_value] raises is a [ValueError]. *)
Lemma resolve_env_raises_value_error v e :
  _resolve_env_value v = Raise e -> exc_kind e = ValueError.
Proof.
  unfold _resolve_env_value. intros H.
  destruct v as [| | | |s| |]; try done.
  destruct (startswith "ENV:" s) eqn:Hp; [|done].
  destruct (PyFacts.split_env_prefix _ Hp) as (x & rest & Hs).
  rewrite Hs in H. simpl in H. destruct (getenv x); by simplify_eq.
Qed.

(** The loop leaves alone the keys it does not visit. *)
Lemma resolve_loop_other_keys items :
  forall acc resolved k,
    resolve_loop items acc = Ok resolved ->
    dict_mem k items = false ->
    dict_get k resolved = dict_get k acc.
Proof.
  induction items as [|[k0 v0] rest IH]; intros acc resolved k Hloop Hk;
    cbn [resolve_loop] in Hloop.
  - by simplify_eq.
  - unfold dict_mem in Hk. simpl in Hk.
    destruct (String.eqb_spec k k0) as [->|Hne]; [done|].
    destruct (resolve_value v0) as [r0|e]; [|done]. simpl in Hloop.
    rewrite (IH _ _ k Hloop); [|exact Hk].
    by apply PyFacts.dict_get_set_ne.
Qed.

(** Under each key of a mapping without repeated keys, the loop stores
    the resolved value of that key. *)
Lemma resolve_loop_visits items :
  forall acc resolved k x,
    resolve_loop items acc = Ok resolved ->
    nodup_keys items = true ->
    In (k, x) items ->
    exists x', resolve_value x = Ok x' /\ dict_get k resolved = Some x'.
Proof.
  induction items as [|[k0 v0] rest IH]; intros acc resolved k x Hloop Hnd Hin;
    cbn [resolve_loop] in Hloop; [done|].
  simpl in Hnd. apply andb_true_iff in Hnd as [Hfresh Hnd].
  apply negb_true_iff in Hfresh.
  destruct (resolve_value v0) as [r0|e] eqn:Hv0; [|done]. simpl in Hloop.
  destruct Hin as [Heq|Hin].
  - simplify_eq. exists r0. split; [done|].
    rewrite (resolve_loop_other_keys _ _ _ k Hloop Hfresh).
    apply PyFacts.dict_get_set_eq.
  - by eapply IH.
Qed.

(** The loop raises as soon as one of its values does. *)
Lemma resolve_loop_raises items :
  forall acc k x e,
    In (k, x) items ->
    resolve_value x = Raise e ->
    exists e', resolve_loop items acc = Raise e'.
Proof.
  induction items as [|[k0 v0] rest IH]; intros acc k x e Hin Hx;
    cbn [resolve_loop]; [done|].
  destruct (resolve_value v0) as [r0|e0] eqn:Hv0; [|by eauto].
  destruct Hin as [Heq|Hin]; [simplify_eq; congruence|].
  simpl. by eapply IH.
Qed.

(** Resolution commutes with following a path of keys. *)
Lemma resolve_value_lookup v :
  forall v' path x,
    well_formed v = true ->
    resolve_value v = Ok v' ->
    lookup_path path v = Some x ->
    exists x', resolve_value x = Ok x' /\ lookup_path path v' = Some x'.
Proof.
  induction v as [v Hleaf|d IHd] using json_dict_ind;
    intros v' path x Hwf Hres Hpath.
  - destruct path as [|k path]; [simpl in Hpath; simplify_eq; by eauto|].
    destruct v; try done. by destruct (Hleaf d).
  - destruct path as [|k path]; [simpl in Hpath; simplify_eq; by eauto|].
    cbn [lookup_path] in Hpath.
    destruct (dict_get k d) as [y|] eqn:Hget; [|done].
    rewrite resolve_value_dict in Hres. unfold _resolve_config_values in Hres.
    destruct (resolve_loop d []) as [resolved|e] eqn:Hloop; [|done].
    simpl in Hres. simplify_eq.
    cbn [well_formed] in Hwf. apply andb_true_iff in Hwf as [Hnd Hall].
    apply PyFacts.dict_get_In in Hget.
    destruct (resolve_loop_visits _ _ _ _ _ Hloop Hnd Hget) as (y' & Hy & Hy').
    rewrite List.Forall_forall in IHd. rewrite forallb_forall in Hall.
    destruct (IHd _ Hget y' path x (Hall _ Hget) Hy Hpath) as (x' & Hx & Hx').
    exists x'. split; [done|]. cbn [lookup_path]. by rewrite Hy'.
Qed.

(** A value that raises makes the whole resolution raise. *)
Lemma resolve_value_lookup_raises v :
  forall path x e,
    lookup_path path v = Some x ->
    resolve_value x = Raise e ->
    exists e', resolve_value v = Raise e'.
Proof.
  induction v as [v Hleaf|d IHd] using json_dict_ind; intros path x e Hpath Hx.
  - destruct path as [|k path]; [simpl in Hpath; simplify_eq; by eauto|].
    destruct v; try done. by destruct (Hleaf d).
  - destruct path as [|k path]; [simpl in Hpath; simplify_eq; by eauto|].
    cbn [lookup_path] in Hpath.
    destruct (dict_get k d) as [y|] eqn:Hget; [|done].
    apply PyFacts.dict_get_In in Hget.
    rewrite List.Forall_forall in IHd.
    destruct (IHd _ Hget path x e Hpath Hx) as (e1 & He1).
    destruct (resolve_loop_raises d [] k y e1 Hget He1) as (e2 & He2).
    exists e2. rewrite resolve_value_dict. unfold _resolve_config_values.
    by rewrite He2.
Qed.

(** Whatever resolution raises is a [ValueError]. *)
Lemma resolve_value_raises_value_error v :
  forall e, resolve_value v = Raise e -> exc_kind e = ValueError.
Proof.
  induction v as [v Hleaf|d IHd] using json_dict_ind; intros e Hres.
  - destruct v; try done.
    + cbn [resolve_value] in Hres.
      by apply resolve_env_raises_value_error in Hres.
    + by destruct (Hleaf d).
  - rewrite resolve_value_dict in Hres. unfold _resolve_config_values in Hres.
    destruct (resolve_loop d []) as [resolved|e0] eqn:Hloop; [done|].
    simpl in Hres. simplify_eq.
    revert Hloop. generalize (@nil (string * json)) as acc.
    induction d as [|[k0 v0] rest IH]; intros acc Hloop;
      cbn [resolve_loop] in Hloop; [done|].
    apply Forall_cons in IHd as [Hv0 Hrest].
    destruct (resolve_value v0) as [r0|e0] eqn:Ev0.
    + simpl in Hloop. by eapply IH.
    + simpl in Hloop. simplify_eq. by apply Hv0.
Qed.

(** Resolution through nested mappings, for references whose name has no
    further "ENV:" inside.  When resolution returns, every such reference
    has been replaced by the value of its variable, at the place where it
    stood, and every string that is no reference and every value that is
    neither a string nor a mapping stands unchanged at its place.  When
    the variable of such a reference is unset, resolution raises a
    [ValueError]. *)
Theorem resolve_config_values_through_mappings config path :
  (forall resolved,
      well_formed (JDict config) = true ->
      _resolve_config_values config = Ok resolved ->
      (forall var,
          lookup_path path (JDict config) = Some (JStr ("ENV:" +:+ var)) ->
          contains "ENV:" var = false ->
          exists env_value,
            getenv var = Some env_value /\
            lookup_path path (JDict resolved) = Some (JStr env_value))
      /\
      (forall v,
          lookup_path path (JDict config) = Some v ->
          match v with
          | JStr s => startswith "ENV:" s = false
          | JDict _ => False
          | _ => True
          end ->
          lookup_path path (JDict resolved) = Some v))
  /\
  (forall var,
      lookup_path path (JDict config) = Some (JStr ("ENV:" +:+ var)) ->
      contains "ENV:" var = false ->
      getenv var = None ->
      exists e,
        _resolve_config_values config = Raise e /\ exc_kind e = ValueError).
Proof.
  split.
  - intros resolved Hwf Hres.
    assert (Hv : resolve_value (JDict config) = Ok (JDict resolved))
      by (by rewrite resolve_value_dict, Hres).
    split.
    + intros var Hpath Hno.
      destruct (resolve_value_lookup _ _ _ _ Hwf Hv Hpath) as (x' & Hx & Hx').
      cbn [resolve_value] in Hx. rewrite (resolve_env_reference _ Hno) in Hx.
      destruct (getenv var) as [env_value|]; [|done].
      simplify_eq. eauto.
    + intros v Hpath Hkind.
      destruct (resolve_value_lookup _ _ _ _ Hwf Hv Hpath) as (x' & Hx & Hx').
      destruct v; try done; cbn [resolve_value] in Hx; try by simplify_eq.
      rewrite (resolve_env_plain _ Hkind) in Hx. by simplify_eq.
  - intros var Hpath Hno Hunset.
    assert (Hx : resolve_value (JStr ("ENV:" +:+ var)) =
                 Raise (mkExc ValueError
                          ("Environment variable " +:+ var +:+ " not found"))).
    { cbn [resolve_value]. by rewrite (resolve_env_reference _ Hno), Hunset. }
    destruct (resolve_value_lookup_raises _ _ _ _ Hpath Hx) as (e & He).
    rewrite resolve_value_dict in He.
    destruct (_resolve_config_values config) as [r|e0] eqn:Hr; [done|].
    simpl in He. simplify_eq. exists e. split; [done|].
    apply (resolve_value_raises_value_error (JDict config)).
    by rewrite resolve_value_dict, Hr.
Qed.

(** C2, at the value "ENV:MY_ENV:KEY".  The variable that is read is the
    text between the first and the second "ENV:", here "MY_": whatever the
    environment holds under "MY_ENV:KEY" never reaches the result. *)
Theorem resolve_env_cuts_name_at_second_marker :
  _resolve_config_values [("api_key", JStr "ENV:MY_ENV:KEY")] =
  match getenv "MY_" with
  | Some env_value => Ok [("api_key", JStr env_value)]
  | None => Raise (mkExc ValueError "Environment variable MY_ not found")
  end.
Proof.
  vm_compute. by destruct (getenv _).
Qed.

(** ** More on loading *)

(** A load changes the cache at its own name only. *)
Lemma load_llm_adds_own_name n self w r self' w' name :
  load_llm n self w = (r, self', w') ->
  is_cached name self' = true ->
  is_cached name self = true \/ name = n.
Proof.
  unfold load_llm, is_cached. intros H.
  destruct (llm_instances self !! n) as [i|] eqn:Hn; [simplify_eq; auto|].
  destruct (load_llm_fresh n (config self) w) as [[i|e] w1]; simplify_eq/=;
    [|auto].
  destruct (decide (n = name)) as [->|Hne]; [auto|].
  rewrite lookup_insert_ne by done. auto.
Qed.

(** Only what returned is remembered: a load that raises leaves the
    loader as it was, with nothing cached under the name, so that the next
    call tries again; and it completes no construction. *)
Theorem load_llm_failure_is_not_cached n self w e self' w' :
  load_llm n self w = (Raise e, self', w') ->
  self' = self /\
  llm_instances self !! n = None /\
  forall name, times_constructed name w' = times_constructed name w.
Proof.
  unfold load_llm. intros H.
  destruct (llm_instances self !! n) as [i|] eqn:Hn; [done|].
  destruct (load_llm_fresh n (config self) w) as [[i|e'] w1] eqn:Hf;
    simplify_eq.
  repeat split; try done.
  intros name. rewrite (load_llm_fresh_count name _ _ _ _ _ Hf). simpl. lia.
Qed.

(** What makes a field of a registry entry count as missing: it is not
    there, or it is there with a false value (null, the empty string). *)
Definition field_missing (k : string) (fields : pydict json) : bool :=
  match dict_get k fields with
  | None => true
  | Some v => negb (truthy v)
  end.

(** The two checks [load_llm] makes before it imports. *)
Lemma load_llm_lookup_errors n self w d :
  llm_instances self !! n = None ->
  json_get "llms" (JDict []) (config self) = Ok (JDict d) ->
  (dict_get n d = None ->
   load_llm n self w =
   (Raise (mkExc ValueError ("LLM '" +:+ n +:+ "' not found in configuration")),
    self, w))
  /\
  (forall fields,
      dict_get n d = Some (JDict fields) ->
      field_missing "import_module" fields || field_missing "import_class" fields
      = true ->
      load_llm n self w =
      (Raise (mkExc ValueError ("Missing import_module or import_class for " +:+ n)),
       self, w)).
Proof.
  intros Hmiss Hllms. unfold load_llm, load_llm_fresh. rewrite Hmiss.
  autounfold with loader_ops. rewrite Hllms. simpl.
  split.
  - intros Hnone. by rewrite Hnone.
  - intros fields Hentry Hfields. rewrite Hentry. simpl.
    unfold field_missing in Hfields.
    destruct (dict_get "import_module" fields) as [mn|];
      destruct (dict_get "import_class" fields) as [cn|]; simpl in *;
      rewrite ?Hfields, ?orb_true_r; done.
Qed.

(** A name the registry does not have, and an entry without an import
    target, are refused with a [ValueError] before anything is imported:
    the loader and the world are left as they were. *)
Theorem load_llm_rejects_before_import n self w d :
  llm_instances self !! n = None ->
  json_get "llms" (JDict []) (config self) = Ok (JDict d) ->
  (dict_get n d = None ->
   load_llm n self w =
   (Raise (mkExc ValueError ("LLM '" +:+ n +:+ "' not found in configuration")),
    self, w))
  /\
  (forall fields,
      dict_get n d = Some (JDict fields) ->
      field_missing "import_module" fields || field_missing "import_class" fields
      = true ->
      load_llm n self w =
      (Raise (mkExc ValueError ("Missing import_module or import_class for " +:+ n)),
       self, w)).
Proof. exact (load_llm_lookup_errors n self w d). Qed.

(** A reference to an unset variable in the constructor arguments stops
    the load with a [ValueError] after the import and before the
    constructor: the trace gains the import and nothing else, and nothing
    is cached. *)
Theorem load_llm_never_constructs_unresolved n self w d fields m c kwargs e :
  llm_instances self !! n = None ->
  json_get "llms" (JDict []) (config self) = Ok (JDict d) ->
  dict_get n d = Some (JDict fields) ->
  dict_get "import_module" fields = Some (JStr m) -> m <> "" ->
  dict_get "import_class" fields = Some (JStr c) -> c <> "" ->
  import_module m = None ->
  module_has m c = true ->
  dict_get "config" fields = Some (JDict kwargs) ->
  _resolve_config_values kwargs = Raise e ->
  load_llm n self w =
    (Raise e, self, mkWorld (trace w ++ [EvImport m]) (next_id w) (stdout w))
  /\ exc_kind e = ValueError.
Proof.
  intros Hmiss Hllms Hentry Hm Hm0 Hc Hc0 Himp Hhas Hkw Hres.
  split.
  - unfold load_llm, load_llm_fresh, import_class. rewrite Hmiss.
    autounfold with loader_ops. rewrite Hllms. simpl. rewrite Hentry. simpl.
    rewrite Hm, Hc. simpl.
    apply String.eqb_neq in Hm0, Hc0. rewrite Hm0, Hc0. simpl.
    rewrite Himp, Hhas. simpl. rewrite Hkw. simpl. by rewrite Hres.
  - apply (resolve_value_raises_value_error (JDict kwargs)).
    by rewrite resolve_value_dict, Hres.
Qed.

(** The listing and the lookup of configurations agree: the names
    [list_available_llms] returns are the keys of the registry in their
    order, [get_llm_config] returns an entry of the registry for each of
    them, and raises a [ValueError] for every other name. *)
Theorem get_llm_config_agrees_with_listing self d name :
  json_get "llms" (JDict []) (config self) = Ok (JDict d) ->
  list_available_llms self = Ok (dict_keys d)
  /\ (In name (dict_keys d) ->
      exists entry, get_llm_config name self = Ok entry /\ In (name, entry) d)
  /\ (~ In name (dict_keys d) ->
      get_llm_config name self =
      Raise (mkExc ValueError
               ("LLM '" +:+ name +:+ "' not found in configuration"))).
Proof.
  intros Hllms. unfold list_available_llms, get_llm_config. rewrite Hllms.
  simpl. split; [done|]. split.
  - intros Hin. destruct (dict_get name d) as [entry|] eqn:Hget.
    + exists entry. split; [done|]. by apply PyFacts.dict_get_In.
    + by apply PyFacts.dict_get_None_keys in Hget.
  - intros Hnot. apply PyFacts.dict_get_None_keys in Hnot. by rewrite Hnot.
Qed.

(** The manager accessor: without a designated manager it raises a
    [ValueError] and touches nothing; a designated name the registry does
    not have is refused like any unknown name; a designated entry that is
    cached is returned as it is, with no import and no construction. *)
Theorem get_manager_llm_designated self w fields :
  config self = JDict fields ->
  (field_missing "managerLLM" fields = true ->
   get_manager_llm self w =
   (Raise (mkExc ValueError "No managerLLM specified in configuration"),
    self, w))
  /\
  (forall name d,
      dict_get "managerLLM" fields = Some (JStr name) -> name <> "" ->
      llm_instances self !! name = None ->
      dict_get "llms" fields = Some (JDict d) ->
      dict_get name d = None ->
      get_manager_llm self w =
      (Raise (mkExc ValueError
                ("LLM '" +:+ name +:+ "' not found in configuration")),
       self, w))
  /\
  (forall name i,
      dict_get "managerLLM" fields = Some (JStr name) -> name <> "" ->
      llm_instances self !! name = Some i ->
      get_manager_llm self w = (Ok i, self, w)).
Proof.
  intros Hcfg. unfold get_manager_llm, field_missing. rewrite Hcfg. simpl.
  split; [|split].
  - intros Hmiss. destruct (dict_get "managerLLM" fields) as [v|]; simpl in *.
    + by rewrite Hmiss.
    + done.
  - intros name d Hname Hne Hcache Hllms Hnone. rewrite Hname. simpl.
    apply String.eqb_neq in Hne. rewrite Hne. simpl.
    apply (load_llm_lookup_errors name self w d); try done.
    by rewrite Hcfg; simpl; rewrite Hllms.
  - intros name i Hname Hne Hcache. rewrite Hname. simpl.
    apply String.eqb_neq in Hne. rewrite Hne. simpl.
    unfold load_llm. by rewrite Hcache.
Qed.

(** Creation loads the flagged entries only: whatever is in the cache of
    a new loader is an entry of the registry whose flag is set. *)
Lemma load_initial_loop_flagged_only items :
  forall self w r self' w' name,
    load_initial_loop items self w = (r, self', w') ->
    is_cached name self' = true ->
    is_cached name self = true \/
    exists entry, In (name, entry) items /\ load_on_init entry = Ok true.
Proof.
  induction items as [|[n entry] rest IH];
    intros self w r self' w' name Hrun Hc; simpl in Hrun.
  - simplify_eq. auto.
  - destruct (load_on_init entry) as [[|]|e] eqn:Hflag.
    + assert (Hstep : forall r1 self1 w1 w2,
                 load_llm n self w = (r1, self1, w1) ->
                 load_initial_loop rest self1 w2 = (r, self', w') ->
                 is_cached name self = true \/
                 exists entry',
                   In (name, entry') ((n, entry) :: rest) /\
                   load_on_init entry' = Ok true).
      { intros r1 self1 w1 w2 Hload Hrest.
        destruct (IH _ _ _ _ _ name Hrest Hc) as [Hc1|(entry' & Hin & Hf)].
        - destruct (load_llm_adds_own_name _ _ _ _ _ _ name Hload Hc1)
            as [?| ->]; [by left|].
          right. exists entry. split; [by left|done].
        - right. exists entry'. split; [by right|done]. }
      destruct (load_llm n self w) as [[[i|e] self1] w1] eqn:Hload;
        by eapply Hstep.
    + destruct (IH _ _ _ _ _ name Hrun Hc) as [?|(entry' & Hin & Hf)];
        [by left|]. right. exists entry'. split; [by right|done].
    + simplify_eq. auto.
Qed.

(** What a new loader holds: every name cached when [__init__] returns
    is the key of a registry entry whose "load_on_init" is "true" in some
    spelling of upper and lower case; an entry that is not flagged is
    never loaded at start-up. *)
Theorem init_loads_flagged_entries_only path cfg w self w' name :
  __init__ path (Ok cfg) w = (Ok self, w') ->
  is_cached name self = true ->
  exists entry,
    In (name, entry) (registry_items cfg) /\ load_on_init entry = Ok true.
Proof.
  unfold __init__, _load_initial_llms, registry_items. simpl.
  intros Hinit Hc.
  destruct cfg as [| | | | |l|d]; try done. simpl in Hinit.
  destruct (dict_get "llms" d) as [llms|]; simpl in Hinit.
  - destruct llms as [| | | | |l|items]; try done. simpl in Hinit.
    destruct (load_initial_loop items _ w) as [[[[]|e] self1] w1] eqn:Hrun;
      simplify_eq.
    destruct (load_initial_loop_flagged_only _ _ _ _ _ _ name Hrun Hc)
      as [Hempty|H]; [|done].
    unfold is_cached in Hempty. simpl in Hempty.
    by rewrite lookup_empty in Hempty.
  - simplify_eq; unfold is_cached in Hc; simpl in Hc;
      by rewrite lookup_empty in Hc.
Qed.

End Loader.

(** ** A registry to run the loader on *)

(** An environment with FOO and MY_ENV:KEY set. *)
Definition demo_getenv (name : string) : option string :=
  if String.eqb name "MY_ENV:KEY" then Some "secret"
  else if String.eqb name "FOO" then Some "bar"
  else None.

(** Only the module langchain_openai can be imported; it has the class
    ChatOpenAI, whose constructor returns. *)
Definition demo_import_module (m : string) : option Exc :=
  if String.eqb m "langchain_openai" then None
  else Some (mkExc ImportError ("No module named '" +:+ m +:+ "'")).
Definition demo_module_has (m c : string) : bool := String.eqb c "ChatOpenAI".
Definition demo_class_init (m c : string) (kwargs : pydict json)
  : option Exc := None.
Definition demo_repr (v : json) : string := "<value>".

(** Two flagged entries, one of which cannot be imported, and one entry
    that is loaded on demand. *)
Definition demo_config : json :=
  JDict
    [ ("managerLLM", JStr "gpt");
      ("llms",
       JDict
         [ ("gpt",
            JDict
              [ ("import_module", JStr "langchain_openai");
                ("import_class", JStr "ChatOpenAI");
                ("load_on_init", JStr "True");
                ("config",
                 JDict
                   [ ("api_key", JStr "ENV:FOO");
                     ("model", JStr "gpt-4");
                     ("options", JDict [("token", JStr "ENV:FOO"); ("n", JInt 3)]) ]) ]);
           ("broken",
            JDict
              [ ("import_module", JStr "no_such_module");
                ("import_class", JStr "X");
                ("load_on_init", JStr "true") ]);
           ("lazy",
            JDict
              [ ("import_module", JStr "langchain_openai");
                ("import_class", JStr "ChatOpenAI");
                ("config", JDict [("temperature", JInt 0)]) ]) ]) ].

Definition demo_world : World := mkWorld [] 0 [].

Definition demo_init : result LLMConfigLoader * World :=
  __init__ demo_getenv demo_import_module demo_module_has demo_class_init
    demo_repr "config/llm.json" (Ok demo_config) demo_world.

(** The loader is created although "broken" cannot be loaded; both
    flagged entries are reported, the unflagged one is not touched. *)
Example demo_init_output :
  (is_ok demo_init.1, stdout demo_init.2, trace demo_init.2) =
  (true,
   [ "✓ Loaded LLM: gpt";
     "✗ Failed to load LLM broken: Could not import X from no_such_module: No module named 'no_such_module'" ],
   [ EvImport "langchain_openai";
     EvConstruct "gpt" "langchain_openai" "ChatOpenAI"
       [ ("api_key", JStr "bar"); ("model", JStr "gpt-4");
         ("options", JDict [("token", JStr "bar"); ("n", JInt 3)]) ]
       true;
     EvImport "no_such_module" ]).
Proof. vm_compute. reflexivity. Qed.

(** Loading "lazy" twice after creation: the second call returns the
    object of the first and leaves the world alone. *)
Example demo_load_twice :
  match demo_init with
  | (Ok self0, w0) =>
      match load_llm demo_getenv demo_import_module demo_module_has
              demo_class_init demo_repr "lazy" self0 w0 with
      | (Ok i, self1, w1) =>
          match load_llm demo_getenv demo_import_module demo_module_has
                  demo_class_init demo_repr "lazy" self1 w1 with
          | (Ok j, _, w2) =>
              inst_id i = 1%nat /\ inst_id j = 1%nat /\ w2 = w1 /\
              times_constructed "lazy" w2 = 1%nat
          | _ => False
          end
      | _ => False
      end
  | _ => False
  end.
Proof. vm_compute. auto. Qed.

(** The whole of the theorem on eager loading at the registry above. *)
Lemma init_constructs_flagged_entries_witness :
  registry_ok demo_config = true /\
  exists self w',
    __init__ demo_getenv demo_import_module demo_module_has demo_class_init
      demo_repr "config/llm.json" (Ok demo_config) demo_world = (Ok self, w')
    /\ (forall name fields s,
          In (name, JDict fields) (registry_items demo_config) ->
          dict_get "load_on_init" fields = Some (JStr s) ->
          lower s = "true" ->
          attempted name self w')
    /\ (forall name fields s m c kwargs resolved,
          dict_get name (registry_items demo_config) = Some (JDict fields) ->
          dict_get "load_on_init" fields = Some (JStr s) ->
          lower s = "true" ->
          dict_get "import_module" fields = Some (JStr m) -> m <> "" ->
          dict_get "import_class" fields = Some (JStr c) -> c <> "" ->
          demo_import_module m = None ->
          demo_module_has m c = true ->
          json_get "config" (JDict []) (JDict fields) = Ok (JDict kwargs) ->
          _resolve_config_values demo_getenv kwargs = Ok resolved ->
          match demo_class_init m c resolved with
          | None =>
              exists i,
                llm_instances self !! name = Some i
                /\ inst_module i = m /\ inst_class i = c
                /\ inst_kwargs i = resolved
                /\ times_constructed name w' =
                   S (times_constructed name demo_world)
                /\ In (loaded_line name) (stdout w')
          | Some e =>
              llm_instances self !! name = None
              /\ times_constructed name w' = times_constructed name demo_world
              /\ In (failed_line name e) (stdout w')
          end).
Proof.
  split; [reflexivity|].
  apply (init_constructs_flagged_entries demo_getenv demo_import_module
           demo_module_has demo_class_init demo_repr
           "config/llm.json" demo_config demo_world).
  reflexivity.
Defined.

(** ** A constructor that refuses its arguments *)

(** A constructor that raises unless it is given an "api_key". *)
Definition demo_strict_init (m c : string) (kwargs : pydict json)
  : option Exc :=
  if dict_mem "api_key" kwargs then None
  else Some (mkExc (OtherError "ValidationError") "api_key is required").

(** Two flagged entries of the same class: the first is given a key,
    the second is not. *)
Definition demo_strict_config : json :=
  JDict
    [ ("llms",
       JDict
         [ ("gpt",
            JDict
              [ ("import_module", JStr "langchain_openai");
                ("import_class", JStr "ChatOpenAI");
                ("load_on_init", JStr "TRUE");
                ("config", JDict [("api_key", JStr "ENV:FOO")]) ]);
           ("nokey",
            JDict
              [ ("import_module", JStr "langchain_openai");
                ("import_class", JStr "ChatOpenAI");
                ("load_on_init", JStr "true") ]) ]) ].

(** The loader is created; the first entry is constructed and cached,
    the second is reported with the text of its constructor and is not
    cached. *)
Example demo_strict_init_output :
  match __init__ demo_getenv demo_import_module demo_module_has
          demo_strict_init demo_repr "config/llm.json"
          (Ok demo_strict_config) demo_world with
  | (Ok self, w') =>
      llm_instances self !! "gpt" =
        Some (mkInstance 0 "langchain_openai" "ChatOpenAI"
                [("api_key", JStr "bar")])
      /\ llm_instances self !! "nokey" = None
      /\ stdout w' =
         [ "✓ Loaded LLM: gpt";
           "✗ Failed to load LLM nokey: api_key is required" ]
      /\ times_constructed "gpt" w' = 1%nat
      /\ times_constructed "nokey" w' = 0%nat
  | (Raise _, _) => False
  end.
Proof. vm_compute. auto 10. Qed.

(** ** A flag that is no string *)

(** The entry of the first registry, flagged with the JSON boolean. *)
Definition demo_boolean_flag_fields : pydict json :=
  [ ("import_module", JStr "langchain_openai");
    ("import_class", JStr "ChatOpenAI");
    ("load_on_init", JBool true);
    ("config", JDict [("model", JStr "gpt-4")]) ].

Definition demo_boolean_flag_dict : pydict json :=
  [ ("managerLLM", JStr "gpt");
    ("llms", JDict [("gpt", JDict demo_boolean_flag_fields)]) ].

(** No loader is created, nothing is imported, constructed or printed. *)
Example demo_boolean_flag :
  __init__ demo_getenv demo_import_module demo_module_has demo_class_init
    demo_repr "config/llm.json" (Ok (JDict demo_boolean_flag_dict)) demo_world
  = (Raise (mkExc AttributeError "object has no attribute 'lower'"),
     demo_world).
Proof. vm_compute. reflexivity. Qed.



(** ** The loader of the first registry, after its creation *)

Definition demo_loader : LLMConfigLoader :=
  match demo_init.1 with
  | Ok self => self
  | Raise _ => mkLoader "config/llm.json" demo_config ∅
  end.

Definition demo_load (name : string) (self : LLMConfigLoader) (w : World)
  : result Instance * LLMConfigLoader * World :=
  load_llm demo_getenv demo_import_module demo_module_has demo_class_init
    demo_repr name self w.

Definition demo_no_module : Exc :=
  mkExc ImportError
    "Could not import X from no_such_module: No module named 'no_such_module'".

(** A registry whose only entry refers to a variable that is not set. *)
Definition demo_unset_fields : pydict json :=
  [ ("import_module", JStr "langchain_openai");
    ("import_class", JStr "ChatOpenAI");
    ("config", JDict [("api_key", JStr "ENV:NOT_SET")]) ].

Definition demo_unset_loader : LLMConfigLoader :=
  mkLoader "config/llm.json"
    (JDict [("llms", JDict [("gpt", JDict demo_unset_fields)])]) ∅.

Definition demo_not_set : Exc :=
  mkExc ValueError "Environment variable NOT_SET not found".

Lemma load_llm_failure_is_not_cached_witness :
  (demo_load "broken" demo_loader demo_init.2).1.2 = demo_loader /\
  llm_instances demo_loader !! "broken" = None /\
  forall name,
    times_constructed name (demo_load "broken" demo_loader demo_init.2).2 =
    times_constructed name demo_init.2.
Proof.
  apply (load_llm_failure_is_not_cached demo_getenv demo_import_module
           demo_module_has demo_class_init demo_repr
           "broken" demo_loader demo_init.2 demo_no_module).
  vm_compute. reflexivity.
Defined.

Lemma load_llm_rejects_before_import_witness :
  (dict_get "claude" (registry_items demo_config) = None ->
   demo_load "claude" demo_loader demo_init.2 =
   (Raise (mkExc ValueError ("LLM '" +:+ "claude" +:+ "' not found in configuration")),
    demo_loader, demo_init.2))
  /\
  (forall fields,
      dict_get "claude" (registry_items demo_config) = Some (JDict fields) ->
      field_missing "import_module" fields || field_missing "import_class" fields
      = true ->
      demo_load "claude" demo_loader demo_init.2 =
      (Raise (mkExc ValueError ("Missing import_module or import_class for " +:+ "claude")),
       demo_loader, demo_init.2)).
Proof.
  apply (load_llm_rejects_before_import demo_getenv demo_import_module
           demo_module_has demo_class_init demo_repr
           "claude" demo_loader demo_init.2 (registry_items demo_config));
    vm_compute; reflexivity.
Defined.

Lemma load_llm_never_constructs_unresolved_witness :
  demo_load "gpt" demo_unset_loader demo_world =
    (Raise demo_not_set, demo_unset_loader,
     mkWorld (trace demo_world ++ [EvImport "langchain_openai"])
       (next_id demo_world) (stdout demo_world))
  /\ exc_kind demo_not_set = ValueError.
Proof.
  apply (load_llm_never_constructs_unresolved demo_getenv demo_import_module
           demo_module_has demo_class_init demo_repr
           "gpt" demo_unset_loader demo_world
           [("gpt", JDict demo_unset_fields)] demo_unset_fields
           "langchain_openai" "ChatOpenAI" [("api_key", JStr "ENV:NOT_SET")]);
    first [ discriminate | vm_compute; reflexivity ].
Defined.

Lemma get_llm_config_agrees_with_listing_witness :
  list_available_llms demo_loader = Ok ["gpt"; "broken"; "lazy"]
  /\ (In "lazy" ["gpt"; "broken"; "lazy"] ->
      exists entry,
        get_llm_config "lazy" demo_loader = Ok entry /\
        In ("lazy", entry) (registry_items demo_config))
  /\ (~ In "lazy" ["gpt"; "broken"; "lazy"] ->
      get_llm_config "lazy" demo_loader =
      Raise (mkExc ValueError
               ("LLM '" +:+ "lazy" +:+ "' not found in configuration"))).
Proof.
  apply (get_llm_config_agrees_with_listing demo_loader
           (registry_items demo_config) "lazy").
  vm_compute. reflexivity.
Defined.

Lemma init_loads_flagged_entries_only_witness :
  exists entry,
    In ("gpt", entry) (registry_items demo_config) /\
    load_on_init entry = Ok true.
Proof.
  apply (init_loads_flagged_entries_only demo_getenv demo_import_module
           demo_module_has demo_class_init demo_repr
           "config/llm.json" demo_config demo_world demo_loader demo_init.2
           "gpt");
    vm_compute; reflexivity.
Defined.


Definition demo_fields : pydict json :=
  match demo_config with JDict fields => fields | _ => [] end.

Definition demo_load_untyped (name : json) (self : LLMConfigLoader)
  (w : World) : result Instance * LLMConfigLoader * World :=
  (Raise (mkExc TypeError "unhashable type"), self, w).

Definition demo_get_manager (self : LLMConfigLoader) (w : World)
  : result Instance * LLMConfigLoader * World :=
  get_manager_llm demo_getenv demo_import_module demo_module_has
    demo_class_init demo_repr demo_load_untyped self w.

(** The manager of the registry above is "gpt", loaded at creation. *)
Lemma get_manager_llm_designated_witness :
  (field_missing "managerLLM" demo_fields = true ->
   demo_get_manager demo_loader demo_init.2 =
   (Raise (mkExc ValueError "No managerLLM specified in configuration"),
    demo_loader, demo_init.2))
  /\
  (forall name d,
      dict_get "managerLLM" demo_fields = Some (JStr name) -> name <> "" ->
      llm_instances demo_loader !! name = None ->
      dict_get "llms" demo_fields = Some (JDict d) ->
      dict_get name d = None ->
      demo_get_manager demo_loader demo_init.2 =
      (Raise (mkExc ValueError
                ("LLM '" +:+ name +:+ "' not found in configuration")),
       demo_loader, demo_init.2))
  /\
  (forall name i,
      dict_get "managerLLM" demo_fields = Some (JStr name) -> name <> "" ->
      llm_instances demo_loader !! name = Some i ->
      demo_get_manager demo_loader demo_init.2 = (Ok i, demo_loader, demo_init.2)).
Proof.
  apply (get_manager_llm_designated demo_getenv demo_import_module
           demo_module_has demo_class_init demo_repr demo_load_untyped
           demo_loader demo_init.2 demo_fields).
  vm_compute. reflexivity.
Defined.

Example demo_manager_is_cached :
  is_ok (demo_get_manager demo_loader demo_init.2).1.1 = true /\
  (demo_get_manager demo_loader demo_init.2).2 = demo_init.2.
Proof. vm_compute. auto. Qed.


End LLMLoader.

(* ===================================================================== *)
(** * document_processor.py: loaders and batches *)
(* ===================================================================== *)

Module DocumentProcessor.
Import Py.

(** The loader classes imported from the document loader library. *)
Inductive LoaderClass :=
| PyPDFLoader
| Docx2txtLoader
| UnstructuredHTMLLoader
| CSVLoader
| UnstructuredExcelLoader
| TextLoader.

(** A loader object: [loader_class(file_path)]. *)
Record Loader := mkFileLoader {
  loader_class : LoaderClass;
  loader_path : string
}.

Record Document := mkDocument {
  page_content : string;
  metadata : pydict string
}.

(** [self.loader_mapping], in the order the constructor writes it. *)
Definition loader_mapping : pydict LoaderClass :=
  [ (".pdf", PyPDFLoader);
    (".docx", Docx2txtLoader);
    (".doc", Docx2txtLoader);
    (".html", UnstructuredHTMLLoader);
    (".htm", UnstructuredHTMLLoader);
    (".csv", CSVLoader);
    (".xlsx", UnstructuredExcelLoader);
    (".xls", UnstructuredExcelLoader);
    (".txt", TextLoader) ].

(** [get_supported_extensions] *)
Definition get_supported_extensions : list string := dict_keys loader_mapping.

Definition newline : string := String (ascii_of_nat 10) "".

(** [os.path.join(a, b)] *)
Definition path_join (a b : string) : string :=
  if startswith "/" b then b
  else if String.eqb a "" then b
  else if String.eqb (String.substring (String.length a - 1) 1 a) "/"
       then a +:+ b
       else a +:+ "/" +:+ b.

Section Processor.

(** The constructor of a loader class: [None] when it returns the loader,
    the exception it raises otherwise. *)
Variable loader_init : LoaderClass -> string -> option Exc.
(** [loader.load()] *)
Variable loader_load : Loader -> result (list Document).
(** [self.text_splitter.split_documents] *)
Variable text_splitter : list Document -> result (list Document).
(** The file system: [os.path.exists], [os.path.isdir], [os.path.isfile],
    [os.listdir] and [os.walk] (the root and the file names of every
    directory it visits). *)
Variable path_exists : string -> bool.
Variable isdir : string -> bool.
Variable isfile : string -> bool.
Variable listdir : string -> list string.
Variable walk : string -> list (string * list string).

(** [loader_class(file_path)] *)
Definition instantiate (cls : LoaderClass) (file_path : string)
  : result Loader :=
  match loader_init cls file_path with
  | Some e => Raise e
  | None => Ok (mkFileLoader cls file_path)
  end.

Definition unsupported_message (file_extension : string) : string :=
  "Unsupported file type: " +:+ file_extension +:+ ". " +:+
  "Supported types: " +:+ join ", " (dict_keys loader_mapping).

(** [get_loader_for_file] *)
Definition get_loader_for_file (file_path : string) : result Loader :=
  let file_extension := lower (path_suffix file_path) in
  match dict_get file_extension loader_mapping with
  | None => Raise (mkExc ValueError (unsupported_message file_extension))
  | Some cls => instantiate cls file_path
  end.

(** The two assignments to [doc.metadata] in [load_document]. *)
Definition add_source (file_path : string) (doc : Document) : Document :=
  mkDocument (page_content doc)
    (dict_set "file_path" file_path
       (dict_set "source" (basename file_path) (metadata doc))).

(** [load_document] *)
Definition load_document (file_path : string) : result (list Document) :=
  if negb (path_exists file_path) then
    Raise (mkExc FileNotFoundError ("File not found: " +:+ file_path))
  else
    match (loader ← get_loader_for_file file_path;
           documents ← loader_load loader;
           mret (map (add_source file_path) documents)) with
    | Ok documents => Ok documents
    | Raise e =>
        Raise (mkExc PlainException
                 ("Error loading document " +:+ file_path +:+ ": " +:+ exc_str e))
    end.

(** [split_documents] *)
Definition split_documents (documents : list Document)
  : result (list Document) :=
  text_splitter documents.

(** [process_document]; [out] is what has been printed so far. *)
Definition process_document (file_path : string) (out : list string)
  : result (list Document) * list string :=
  match load_document file_path with
  | Raise e => (Raise e, out)
  | Ok documents =>
      match split_documents documents with
      | Raise e => (Raise e, out)
      | Ok split_docs =>
          (Ok split_docs,
           out ++
           [ "Processed " +:+ file_path +:+ ":";
             "  - Loaded " +:+ pretty (length documents) +:+ " document(s)";
             "  - Split into " +:+ pretty (length split_docs) +:+ " chunks" ])
      end
  end.

Definition error_line (file_path : string) (e : Exc) : string :=
  "Error processing " +:+ file_path +:+ ": " +:+ exc_str e.

(** The loop of [process_multiple_documents]. *)
Fixpoint process_loop (file_paths : list string) (all_splits : list Document)
  (out : list string) : list Document * list string :=
  match file_paths with
  | [] => (all_splits, out)
  | file_path :: rest =>
      match process_document file_path out with
      | (Ok splits, out') => process_loop rest (all_splits ++ splits) out'
      | (Raise e, out') =>
          process_loop rest all_splits (out' ++ [error_line file_path e])
      end
  end.

(** [process_multiple_documents] *)
Definition process_multiple_documents (file_paths : list string)
  (out : list string) : list Document * list string :=
  let '(all_splits, out') := process_loop file_paths [] out in
  (all_splits,
   out' ++ [ newline +:+ "Total processed: " +:+ pretty (length all_splits)
             +:+ " chunks from " +:+ pretty (length file_paths) +:+ " files" ]).

Definition supported (file_path : string) : bool :=
  dict_mem (lower (path_suffix file_path)) loader_mapping.

(** The files [process_directory] collects. *)
Definition directory_files (directory_path : string) (recursive : bool)
  : list string :=
  if recursive then
    flat_map
      (fun rf => List.filter supported (map (path_join rf.1) rf.2))
      (walk directory_path)
  else
    List.filter (fun p => isfile p && supported p)
      (map (path_join directory_path) (listdir directory_path)).

(** [process_directory] *)
Definition process_directory (directory_path : string) (recursive : bool)
  (out : list string) : result (list Document) * list string :=
  if negb (isdir directory_path) then
    (Raise (mkExc NotADirectoryError ("Not a directory: " +:+ directory_path)),
     out)
  else
    let file_paths := directory_files directory_path recursive in
    let '(all_splits, out') :=
      process_multiple_documents file_paths
        (out ++ [ "Found " +:+ pretty (length file_paths) +:+
                  " supported documents in " +:+ directory_path ]) in
    (Ok all_splits, out').

(** The chunks a file contributes to a batch: those of
    [process_document] when it returns, none when it raises. *)
Definition chunks_of (file_path : string) : list Document :=
  match (process_document file_path []).1 with
  | Ok splits => splits
  | Raise _ => []
  end.

(** ** Properties of the document processor *)





(** What [process_document] returns does not depend on what was printed
    before, and it only ever adds to the output. *)
Lemma process_document_result file_path out :
  (process_document file_path out).1 = (process_document file_path []).1.
Proof.
  unfold process_document.
  destruct (load_document file_path) as [documents|e]; [|done].
  by destruct (split_documents documents).
Qed.

Lemma process_document_output file_path out line :
  In line out -> In line (process_document file_path out).2.
Proof.
  unfold process_document. intros Hin.
  destruct (load_document file_path) as [documents|e]; [|done].
  destruct (split_documents documents); [|done].
  simpl. apply in_or_app. by left.
Qed.

(** The loop appends, file after file, the chunks of the files that
    processed, and keeps every line printed so far. *)
Lemma process_loop_chunks file_paths :
  forall all_splits out,
    (process_loop file_paths all_splits out).1 =
    all_splits ++ flat_map chunks_of file_paths.
Proof.
  induction file_paths as [|p rest IH]; intros all_splits out;
    cbn [process_loop flat_map].
  - by rewrite app_nil_r.
  - unfold chunks_of at 1. rewrite <- (process_document_result p out).
    destruct (process_document p out) as [[splits|e] out']; simpl.
    + by rewrite IH, app_assoc.
    + by rewrite IH.
Qed.

Lemma process_loop_output file_paths :
  forall all_splits out line,
    In line out -> In line (process_loop file_paths all_splits out).2.
Proof.
  induction file_paths as [|p rest IH]; intros all_splits out line Hin;
    cbn [process_loop]; [done|].
  pose proof (process_document_output p out line Hin) as Hout.
  destruct (process_document p out) as [[splits|e] out']; simpl in Hout.
  - by apply IH.
  - apply IH. apply in_or_app. by left.
Qed.

Lemma process_loop_reports file_paths :
  forall all_splits out p e,
    In p file_paths ->
    (process_document p []).1 = Raise e ->
    In (error_line p e) (process_loop file_paths all_splits out).2.
Proof.
  induction file_paths as [|q rest IH]; intros all_splits out p e Hin Hfail;
    cbn [process_loop]; [done|].
  destruct Hin as [->|Hin].
  - rewrite <- (process_document_result p out) in Hfail.
    destruct (process_document p out) as [[splits|e'] out']; simplify_eq/=.
    apply process_loop_output. apply in_or_app. right. by left.
  - destruct (process_document q out) as [[splits|e'] out']; by apply IH.
Qed.

(** C8.  A batch always returns; its result is the concatenation, in
    input order, of the chunks of the files that processed; every file
    that raised is reported by its own line; and [process_directory], on a
    directory, is the batch over the supported files it finds there. *)
Theorem process_multiple_documents_isolates_failures file_paths out :
  (process_multiple_documents file_paths out).1 = flat_map chunks_of file_paths
  /\
  (forall p e,
      In p file_paths ->
      (process_document p []).1 = Raise e ->
      In (error_line p e) (process_multiple_documents file_paths out).2)
  /\
  (forall directory_path recursive,
      isdir directory_path = true ->
      (process_directory directory_path recursive out).1 =
      Ok (flat_map chunks_of (directory_files directory_path recursive))).
Proof.
  split; [|split].
  - unfold process_multiple_documents.
    pose proof (process_loop_chunks file_paths [] out) as H.
    destruct (process_loop file_paths [] out) as [all_splits out']. done.
  - intros p e Hin Hfail. unfold process_multiple_documents.
    pose proof (process_loop_reports file_paths [] out p e Hin Hfail) as H.
    destruct (process_loop file_paths [] out) as [all_splits out'].
    simpl in *. apply in_or_app. by left.
  - intros d r Hdir. unfold process_directory. rewrite Hdir. simpl.
    unfold process_multiple_documents.
    pose proof (process_loop_chunks (directory_files d r) []) as H.
    match goal with
    | |- context [process_loop ?l ?a ?o] =>
        specialize (H o); destruct (process_loop l a o) as [all_splits out']
    end.
    simpl in *. by rewrite H.
Qed.


(** ** More on loading documents *)

Lemma add_source_metadata file_path doc :
  dict_get "source" (metadata (add_source file_path doc)) =
    Some (basename file_path) /\
  dict_get "file_path" (metadata (add_source file_path doc)) = Some file_path /\
  page_content (add_source file_path doc) = page_content doc.
Proof.
  unfold add_source. simpl. repeat split.
  - rewrite PyFacts.dict_get_set_ne by done. apply PyFacts.dict_get_set_eq.
  - apply PyFacts.dict_get_set_eq.
Qed.

(** Every document [load_document] returns is one the loader returned,
    in the same order and with the same text, and carries the file's base
    name under "source" and the path under "file_path", whatever the loader
    had put there. *)
Theorem load_document_stamps_source file_path documents :
  load_document file_path = Ok documents ->
  exists loader loaded,
    get_loader_for_file file_path = Ok loader /\
    loader_load loader = Ok loaded /\
    map page_content documents = map page_content loaded /\
    Forall
      (fun doc =>
         dict_get "source" (metadata doc) = Some (basename file_path) /\
         dict_get "file_path" (metadata doc) = Some file_path)
      documents.
Proof.
  unfold load_document. intros H.
  destruct (path_exists file_path); [|done]. simpl in H.
  destruct (get_loader_for_file file_path) as [loader|e]; [|done].
  simpl in H. destruct (loader_load loader) as [loaded|e] eqn:Hload; [|done].
  simpl in H. simplify_eq. exists loader, loaded.
  split; [done|]. split; [done|]. split.
  - clear Hload. induction loaded as [|doc rest IH]; simpl; [done|].
    by rewrite IH.
  - clear Hload. induction loaded as [|doc rest IH]; simpl; constructor;
      [|done].
    split; apply (add_source_metadata file_path doc).
Qed.

(** [load_document] raises two kinds of exception only: a
    [FileNotFoundError] for a path that does not exist, raised before any
    loader is looked for, and for a path that exists a plain [Exception]
    whose text starts with "Error loading document", the path and a colon,
    whatever went wrong underneath (an unsupported extension too). *)
Theorem load_document_error_kinds file_path e :
  load_document file_path = Raise e ->
  (path_exists file_path = false /\
   e = mkExc FileNotFoundError ("File not found: " +:+ file_path))
  \/
  (path_exists file_path = true /\
   exc_kind e = PlainException /\
   exists cause,
     (get_loader_for_file file_path = Raise cause \/
      exists loader, get_loader_for_file file_path = Ok loader /\
                     loader_load loader = Raise cause) /\
     exc_str e =
     "Error loading document " +:+ file_path +:+ ": " +:+ exc_str cause).
Proof.
  unfold load_document. intros H.
  destruct (path_exists file_path); simpl in H.
  - right. split; [done|].
    destruct (get_loader_for_file file_path) as [loader|cause] eqn:Hget;
      simpl in H.
    + destruct (loader_load loader) as [loaded|cause] eqn:Hload; simpl in H;
        [done|]. simplify_eq. split; [done|]. exists cause. split; [|done].
      right. by exists loader.
    + simplify_eq. split; [done|]. exists cause. auto.
  - left. by simplify_eq.
Qed.

Lemma supported_has_loader file_path :
  supported file_path = true ->
  exists cls,
    dict_get (lower (path_suffix file_path)) loader_mapping = Some cls /\
    get_loader_for_file file_path = instantiate cls file_path.
Proof.
  unfold supported, dict_mem, get_loader_for_file.
  destruct (dict_get _ loader_mapping) as [cls|]; [|done]. eauto.
Qed.

(** [process_directory] refuses what is not a directory with a
    [NotADirectoryError] and prints nothing; on a directory, every path it
    hands to the batch has a loader class (and, without recursion, is a
    file), so that no file of a directory is ever reported as of an
    unsupported type. *)
Theorem process_directory_selects_supported_files directory_path recursive out :
  (isdir directory_path = false ->
   process_directory directory_path recursive out =
   (Raise (mkExc NotADirectoryError ("Not a directory: " +:+ directory_path)),
    out))
  /\
  (forall file_path,
      In file_path (directory_files directory_path recursive) ->
      (recursive = false -> isfile file_path = true) /\
      exists cls,
        dict_get (lower (path_suffix file_path)) loader_mapping = Some cls /\
        get_loader_for_file file_path = instantiate cls file_path).
Proof.
  split.
  - intros Hdir. unfold process_directory. by rewrite Hdir.
  - intros file_path Hin. unfold directory_files in Hin.
    destruct recursive.
    + split; [done|]. apply in_flat_map in Hin as (rf & _ & Hin).
      apply List.filter_In in Hin as [_ Hs]. by apply supported_has_loader.
    + apply List.filter_In in Hin as [_ Hs].
      apply andb_true_iff in Hs as [Hfile Hs].
      split; [done|]. by apply supported_has_loader.
Qed.

End Processor.

Section Settings.

(** [os.getenv] and Python's [int] on a string. *)
Variable getenv : string -> option string.
Variable py_int : string -> result Z.

(** [self.chunk_size] and [self.chunk_overlap]. *)
Record ChunkSettings := mkSettings {
  chunk_size : Z;
  chunk_overlap : Z
}.

(** [os.getenv(name, default)] *)
Definition getenv_default (name default : string) : string :=
  match getenv name with Some v => v | None => default end.

(** [arg or int(os.getenv(name, default))], for an argument that is
    [None] or an integer: the right-hand side is evaluated only when the
    argument is [None] or zero. *)
Definition or_env (arg : option Z) (name default : string) : result Z :=
  match arg with
  | Some n =>
      if (n =? 0)%Z then py_int (getenv_default name default) else Ok n
  | None => py_int (getenv_default name default)
  end.

(** The first two assignments of [DocumentProcessor.__init__]. *)
Definition chunk_settings (chunk_size chunk_overlap : option Z)
  : result ChunkSettings :=
  size ← or_env chunk_size "CHUNK_SIZE" "1000";
  overlap ← or_env chunk_overlap "CHUNK_OVERLAP" "200";
  mret (mkSettings size overlap).

(** A size or an overlap of zero cannot be asked for: zero is taken as
    no argument, and the environment (or 1000 and 200) decides.  Any other
    pair of arguments is stored as given, and the environment is not read
    then, so that a malformed CHUNK_SIZE cannot make the constructor
    raise. *)
Theorem chunk_settings_zero_is_unset size overlap :
  chunk_settings size (Some 0%Z) = chunk_settings size None
  /\ chunk_settings (Some 0%Z) overlap = chunk_settings None overlap
  /\ (forall n m,
        n <> 0%Z -> m <> 0%Z ->
        chunk_settings (Some n) (Some m) = Ok (mkSettings n m)).
Proof.
  split; [done|]. split; [done|].
  intros n m Hn Hm. unfold chunk_settings, or_env.
  apply Z.eqb_neq in Hn, Hm. by rewrite Hn, Hm.
Qed.

End Settings.

(** ** A file system to run the processor on *)

(** Three files exist; the text loader returns one document per file,
    the PDF loader fails; the splitter cuts nothing. *)
Definition demo_exists (p : string) : bool :=
  String.eqb p "docs/a.txt" || String.eqb p "docs/b.PDF" ||
  String.eqb p "docs/notes.md".
Definition demo_loader_init (cls : LoaderClass) (p : string) : option Exc :=
  None.
Definition demo_load (l : Loader) : result (list Document) :=
  match loader_class l with
  | TextLoader => Ok [mkDocument "hello world" []]
  | _ => Raise (mkExc (OtherError "PdfReadError") "EOF marker not found")
  end.
Definition demo_splitter (docs : list Document) : result (list Document) :=
  Ok docs.

Example demo_loader_for_pdf :
  get_loader_for_file demo_loader_init "docs/b.PDF" =
  Ok (mkFileLoader PyPDFLoader "docs/b.PDF").
Proof. vm_compute. reflexivity. Qed.

Example demo_loader_for_markdown :
  get_loader_for_file demo_loader_init "docs/notes.md" =
  Raise (mkExc ValueError
           "Unsupported file type: .md. Supported types: .pdf, .docx, .doc, .html, .htm, .csv, .xlsx, .xls, .txt").
Proof. vm_compute. reflexivity. Qed.

(** A batch of four paths: one loads, one fails in its loader, one has no
    loader, one does not exist.  The batch returns the chunks of the first
    and reports the other three. *)
Example demo_batch :
  process_multiple_documents demo_loader_init demo_load demo_splitter
    demo_exists ["docs/a.txt"; "docs/b.PDF"; "docs/notes.md"; "docs/gone.txt"] []
  = ([ mkDocument "hello world"
         [("source", "a.txt"); ("file_path", "docs/a.txt")] ],
     [ "Processed docs/a.txt:";
       "  - Loaded 1 document(s)";
       "  - Split into 1 chunks";
       "Error processing docs/b.PDF: Error loading document docs/b.PDF: EOF marker not found";
       "Error processing docs/notes.md: Error loading document docs/notes.md: Unsupported file type: .md. Supported types: .pdf, .docx, .doc, .html, .htm, .csv, .xlsx, .xls, .txt";
       "Error processing docs/gone.txt: File not found: docs/gone.txt";
       newline +:+ "Total processed: 1 chunks from 4 files" ]).
Proof. vm_compute. reflexivity. Qed.


(** ** More runs of the processor *)

Definition demo_isdir (p : string) : bool := String.eqb p "docs".
Definition demo_isfile (p : string) : bool := demo_exists p.
Definition demo_listdir (p : string) : list string :=
  if String.eqb p "docs" then ["a.txt"; "b.PDF"; "notes.md"; "archive"]
  else [].
Definition demo_walk (p : string) : list (string * list string) :=
  if String.eqb p "docs"
  then [("docs", ["a.txt"; "b.PDF"; "notes.md"]); ("docs/archive", ["old.csv"])]
  else [].

Example demo_directory_files :
  directory_files demo_isfile demo_listdir demo_walk "docs" false =
    ["docs/a.txt"; "docs/b.PDF"] /\
  directory_files demo_isfile demo_listdir demo_walk "docs" true =
    ["docs/a.txt"; "docs/b.PDF"; "docs/archive/old.csv"].
Proof. vm_compute. auto. Qed.

Lemma load_document_stamps_source_witness :
  exists loader loaded,
    get_loader_for_file demo_loader_init "docs/a.txt" = Ok loader /\
    demo_load loader = Ok loaded /\
    map page_content
      [mkDocument "hello world"
         [("source", "a.txt"); ("file_path", "docs/a.txt")]] =
    map page_content loaded /\
    Forall
      (fun doc =>
         dict_get "source" (metadata doc) = Some (basename "docs/a.txt") /\
         dict_get "file_path" (metadata doc) = Some "docs/a.txt")
      [mkDocument "hello world"
         [("source", "a.txt"); ("file_path", "docs/a.txt")]].
Proof.
  apply (load_document_stamps_source demo_loader_init demo_load demo_exists
           "docs/a.txt").
  vm_compute. reflexivity.
Defined.

Definition demo_pdf_error : Exc :=
  mkExc PlainException
    "Error loading document docs/b.PDF: EOF marker not found".

Lemma load_document_error_kinds_witness :
  (demo_exists "docs/b.PDF" = false /\
   demo_pdf_error =
   mkExc FileNotFoundError ("File not found: " +:+ "docs/b.PDF"))
  \/
  (demo_exists "docs/b.PDF" = true /\
   exc_kind demo_pdf_error = PlainException /\
   exists cause,
     (get_loader_for_file demo_loader_init "docs/b.PDF" = Raise cause \/
      exists loader,
        get_loader_for_file demo_loader_init "docs/b.PDF" = Ok loader /\
        demo_load loader = Raise cause) /\
     exc_str demo_pdf_error =
     "Error loading document " +:+ "docs/b.PDF" +:+ ": " +:+ exc_str cause).
Proof.
  apply (load_document_error_kinds demo_loader_init demo_load demo_exists
           "docs/b.PDF" demo_pdf_error).
  vm_compute. reflexivity.
Defined.


End DocumentProcessor.

(* ===================================================================== *)
(** * vector_store.py: the wrapper around the vector database *)
(* ===================================================================== *)

Module VectorStore.
Import Py.
Export DocumentProcessor (Document, mkDocument, page_content, metadata).

Section Store.

(** The database object ([Chroma]) and its calls.  A call that changes
    the database returns the database after it. *)
Variable Chroma : Type.
(** [Chroma(persist_directory=..., collection_name=...)] *)
Variable open_collection : string -> string -> Chroma.
(** [Chroma.from_documents(documents, persist_directory, collection_name)] *)
Variable from_documents : list Document -> string -> string -> result Chroma.
(** [vectorstore.add_documents(documents)]: the new ids *)
Variable store_add_documents :
  Chroma -> list Document -> result (list string) * Chroma.
(** [hasattr(vectorstore, 'persist')] and [vectorstore.persist()] *)
Variable has_persist : Chroma -> bool.
Variable persist : Chroma -> result unit * Chroma.
(** [os.path.exists] *)
Variable path_exists : string -> bool.

(** The fields of a [VectorStoreManager] ([embeddings] is the embedding
    model handed to the database, which the calls above stand for). *)
Record VectorStoreManager := mkManager {
  persist_directory : string;
  collection_name : string;
  vectorstore : option Chroma
}.

(** A retriever: the database it reads and the [k] of [search_kwargs].
    The database is recorded as it is when the retriever is made; in
    Python the retriever holds the manager's database object itself, so
    what is added to or deleted from that object later reaches the
    retriever too, which this record does not follow. *)
Record Retriever := mkRetriever {
  retriever_store : Chroma;
  retriever_k : nat
}.

(** [_initialize_vectorstore] *)
Definition _initialize_vectorstore (self : VectorStoreManager)
  (out : list string) : VectorStoreManager * list string :=
  if path_exists (persist_directory self) then
    (mkManager (persist_directory self) (collection_name self)
       (Some (open_collection (persist_directory self) (collection_name self))),
     out ++ ["Loading existing vector store from " +:+ persist_directory self])
  else
    (mkManager (persist_directory self) (collection_name self) None,
     out ++ ["Creating new vector store at " +:+ persist_directory self]).

Definition set_store (self : VectorStoreManager) (vs : option Chroma)
  : VectorStoreManager :=
  mkManager (persist_directory self) (collection_name self) vs.

(** [add_documents]: the result, the manager after the call, the output
    after the call. *)
Definition add_documents (documents : list Document)
  (self : VectorStoreManager) (out : list string)
  : result (list string) * VectorStoreManager * list string :=
  match documents with
  | [] => (Ok [], self, out ++ ["No documents to add"])
  | _ :: _ =>
      match vectorstore self with
      | None =>
          let out1 :=
            out ++ [ "Creating vector store with " +:+
                     pretty (length documents) +:+ " documents" ] in
          match from_documents documents (persist_directory self)
                  (collection_name self) with
          | Raise e => (Raise e, self, out1)
          | Ok vs =>
              let added :=
                "✓ Successfully added " +:+ pretty (length documents) +:+
                " documents to vector store" in
              if has_persist vs then
                match persist vs with
                | (Raise e, vs') => (Raise e, set_store self (Some vs'), out1)
                | (Ok _, vs') =>
                    (Ok [], set_store self (Some vs'), out1 ++ [added])
                end
              else (Ok [], set_store self (Some vs), out1 ++ [added])
          end
      | Some vs =>
          let out1 :=
            out ++ [ "Adding " +:+ pretty (length documents) +:+
                     " documents to existing vector store" ] in
          match store_add_documents vs documents with
          | (Ok ids, vs') => (Ok ids, set_store self (Some vs'), out1)
          | (Raise e, vs') => (Raise e, set_store self (Some vs'), out1)
          end
      end
  end.

(** [get_retriever]; [search_kwargs] is the [k] asked for, if any. *)
Definition get_retriever (search_kwargs : option nat)
  (self : VectorStoreManager) : result Retriever :=
  match vectorstore self with
  | None =>
      Raise (mkExc ValueError
               "Vector store is empty. Please add documents first.")
  | Some vs =>
      Ok (mkRetriever vs (match search_kwargs with Some k => k | None => 4 end))
  end.

(** ** Properties of the vector store manager *)


End Store.

Section Queries.

(** The database and its calls, as in the section above, and those of
    the methods that read or delete: [vectorstore.delete_collection()]
    ([None] when it returns), the two searches, the count of the
    collection and the names of the collections of the client. *)
Variable Chroma : Type.
Variable Score : Type.
Variable from_documents : list Document -> string -> string -> result Chroma.
Variable store_add_documents :
  Chroma -> list Document -> result (list string) * Chroma.
Variable has_persist : Chroma -> bool.
Variable persist : Chroma -> result unit * Chroma.
Variable store_delete_collection : Chroma -> option Exc.
Variable store_search :
  Chroma -> string -> nat -> option (pydict string) -> result (list Document).
Variable store_search_with_score :
  Chroma -> string -> nat -> option (pydict string) ->
  result (list (Document * Score)).
Variable store_count : Chroma -> result nat.
Variable store_collections : Chroma -> result (list string).

Definition empty_store_line : string :=
  "Vector store is empty. Please add documents first.".

(** [similarity_search]: the result and the output after the call. *)
Definition similarity_search (query : string) (k : nat)
  (filter : option (pydict string)) (self : VectorStoreManager Chroma)
  (out : list string) : result (list Document) * list string :=
  match vectorstore Chroma self with
  | None => (Ok [], out ++ [empty_store_line])
  | Some vs => (store_search vs query k filter, out)
  end.

(** [similarity_search_with_score] *)
Definition similarity_search_with_score (query : string) (k : nat)
  (filter : option (pydict string)) (self : VectorStoreManager Chroma)
  (out : list string) : result (list (Document * Score)) * list string :=
  match vectorstore Chroma self with
  | None => (Ok [], out ++ [empty_store_line])
  | Some vs => (store_search_with_score vs query k filter, out)
  end.

(** [delete_collection]: when the database's call raises, the assignment
    after it is not reached. *)
Definition delete_collection (self : VectorStoreManager Chroma)
  (out : list string)
  : result unit * VectorStoreManager Chroma * list string :=
  match vectorstore Chroma self with
  | Some vs =>
      match store_delete_collection vs with
      | Some e => (Raise e, self, out)
      | None =>
          (Ok tt, set_store Chroma self None,
           out ++ ["✓ Deleted collection: " +:+ collection_name Chroma self])
      end
  | None => (Ok tt, self, out)
  end.

(** [get_collection_count]: any exception of the count becomes 0. *)
Definition get_collection_count (self : VectorStoreManager Chroma) : nat :=
  match vectorstore Chroma self with
  | None => 0
  | Some vs => match store_count vs with Ok n => n | Raise _ => 0 end
  end.

(** [list_collections]: any exception becomes the empty list. *)
Definition list_collections (self : VectorStoreManager Chroma)
  : list string :=
  match vectorstore Chroma self with
  | None => []
  | Some vs => match store_collections vs with Ok l => l | Raise _ => [] end
  end.

(** ** Properties of the queries *)

(** Once an addition of documents has returned, the store exists: a
    retriever can be had, with [k] 4 unless asked otherwise, and every
    further addition goes to the database's [add_documents], whose ids it
    returns. *)
Theorem add_documents_makes_store_available documents self out r self' out' :
  documents <> [] ->
  add_documents Chroma from_documents store_add_documents has_persist persist
    documents self out = (Ok r, self', out') ->
  exists vs,
    vectorstore Chroma self' = Some vs
    /\ (forall k,
          get_retriever Chroma k self' =
          Ok (mkRetriever Chroma vs
                (match k with Some n => n | None => 4 end)))
    /\ (forall more out2,
          more <> [] ->
          (add_documents Chroma from_documents store_add_documents has_persist
             persist more self' out2).1.1 =
          (store_add_documents vs more).1).
Proof.
  intros Hne Hadd.
  assert (Hstore : exists vs, vectorstore Chroma self' = Some vs).
  { unfold add_documents in Hadd. destruct documents as [|d ds]; [done|].
    destruct (vectorstore Chroma self) as [vs|].
    - destruct (store_add_documents vs (d :: ds)) as [[ids|e] vs'];
        simplify_eq. by eexists.
    - destruct (from_documents _ _ _) as [vs|e]; [|done].
      destruct (has_persist vs).
      + destruct (persist vs) as [[[]|e] vs']; simplify_eq. by eexists.
      + simplify_eq. by eexists. }
  destruct Hstore as [vs Hvs]. exists vs. split; [done|]. split.
  - intros k. unfold get_retriever. by rewrite Hvs.
  - intros more out2 Hmore. unfold add_documents.
    destruct more as [|d ds]; [done|]. rewrite Hvs.
    by destruct (store_add_documents vs (d :: ds)) as [[ids|e] vs'].
Qed.

(** After [delete_collection] has returned, the manager is the empty
    manager under the same directory and collection name: both searches
    return the empty list, the count is 0 and no collection is listed, no
    retriever can be had, a second deletion changes and prints nothing,
    and the next addition creates the store anew and returns no ids. *)
Theorem delete_collection_leaves_empty_manager self out self' out' :
  delete_collection self out = (Ok tt, self', out') ->
  vectorstore Chroma self' = None
  /\ persist_directory Chroma self' = persist_directory Chroma self
  /\ collection_name Chroma self' = collection_name Chroma self
  /\ (forall query k filter o,
        (similarity_search query k filter self' o).1 = Ok [] /\
        (similarity_search_with_score query k filter self' o).1 = Ok [])
  /\ get_collection_count self' = 0%nat
  /\ list_collections self' = []
  /\ (forall k,
        get_retriever Chroma k self' =
        Raise (mkExc ValueError
                 "Vector store is empty. Please add documents first."))
  /\ delete_collection self' out' = (Ok tt, self', out')
  /\ (forall documents vs,
        documents <> [] ->
        from_documents documents (persist_directory Chroma self)
          (collection_name Chroma self) = Ok vs ->
        has_persist vs = false ->
        (add_documents Chroma from_documents store_add_documents has_persist
           persist documents self' out').1 =
        (Ok [], set_store Chroma self' (Some vs))).
Proof.
  intros Hdel.
  assert (Hnone : vectorstore Chroma self' = None /\
                  persist_directory Chroma self' = persist_directory Chroma self /\
                  collection_name Chroma self' = collection_name Chroma self).
  { unfold delete_collection in Hdel.
    destruct (vectorstore Chroma self) as [vs|] eqn:Hvs.
    - destruct (store_delete_collection vs); by simplify_eq.
    - by simplify_eq. }
  destruct Hnone as (Hnone & Hdir & Hname).
  unfold similarity_search, similarity_search_with_score,
    get_collection_count, list_collections, get_retriever, delete_collection.
  rewrite Hnone. repeat split; try done.
  intros documents vs Hne Hfrom Hpersist. unfold add_documents.
  destruct documents as [|d ds]; [done|].
  by rewrite Hnone, Hdir, Hname, Hfrom, Hpersist.
Qed.

End Queries.

Section Construction.

(** What the constructor of the manager calls: the database, the file
    system and the environment as above, and
    [HuggingFaceEmbeddings(model_name=...)], which loads the embedding
    model ([None] when it returns). *)
Variable Chroma : Type.
Variable open_collection : string -> string -> Chroma.
Variable path_exists : string -> bool.
Variable getenv : string -> option string.
Variable embeddings_error : string -> option Exc.

Definition DEFAULT_COLLECTION : string := "rag_documents".
Definition DEFAULT_EMBEDDING_MODEL : string :=
  "sentence-transformers/all-MiniLM-L6-v2".

(** [persist_directory or os.getenv("CHROMA_PERSIST_DIRECTORY",
    "./chroma_db")] *)
Definition directory_or_env (persist_directory : option string) : string :=
  let from_env :=
    match getenv "CHROMA_PERSIST_DIRECTORY" with
    | Some v => v
    | None => "./chroma_db"
    end in
  match persist_directory with
  | Some d => if String.eqb d "" then from_env else d
  | None => from_env
  end.

(** [VectorStoreManager.__init__]: when the embedding model cannot be
    loaded there is no manager. *)
Definition __init__ (persist_directory : option string)
  (collection_name embedding_model : string) (out : list string)
  : result (VectorStoreManager Chroma) * list string :=
  let out1 := out ++ ["Loading embedding model: " +:+ embedding_model] in
  match embeddings_error embedding_model with
  | Some e => (Raise e, out1)
  | None =>
      let '(self, out2) :=
        _initialize_vectorstore Chroma open_collection path_exists
          (mkManager Chroma (directory_or_env persist_directory)
             collection_name None)
          out1 in
      (Ok self, out2)
  end.

(** [get_vector_store], on the global [_vector_store]: the manager, or
    the exception of its construction, with the global after the call. *)
Definition get_vector_store
  (_vector_store : option (VectorStoreManager Chroma)) (out : list string)
  : result (VectorStoreManager Chroma) * option (VectorStoreManager Chroma)
    * list string :=
  match _vector_store with
  | Some manager => (Ok manager, Some manager, out)
  | None =>
      match __init__ None DEFAULT_COLLECTION DEFAULT_EMBEDDING_MODEL out with
      | (Ok manager, out') => (Ok manager, Some manager, out')
      | (Raise e, out') => (Raise e, None, out')
      end
  end.

End Construction.

(** ** A database to run the manager on *)

(** A database that keeps its documents in a list and names the
    document at position [i] "doc-i". *)
Definition demo_from_documents (docs : list Document) (dir coll : string)
  : result (list Document) := Ok docs.
Definition demo_add (vs : list Document) (docs : list Document)
  : result (list string) * list Document :=
  (Ok (map (fun i => "doc-" +:+ pretty i) (seq (length vs) (length docs))),
   vs ++ docs).
Definition demo_has_persist (vs : list Document) : bool := true.
Definition demo_persist (vs : list Document)
  : result unit * list Document := (Ok tt, vs).

Definition demo_manager : VectorStoreManager (list Document) :=
  mkManager (list Document) "./chroma_db" "rag_documents" None.

(** The first addition creates the store and returns no ids; the second
    returns the id of the document it adds. *)
Example demo_add_twice :
  let d1 := mkDocument "hello world" [("source", "a.txt")] in
  let d2 := mkDocument "good bye" [("source", "b.txt")] in
  match add_documents (list Document) demo_from_documents demo_add
          demo_has_persist demo_persist [d1] demo_manager [] with
  | (r1, manager1, _) =>
      match add_documents (list Document) demo_from_documents demo_add
              demo_has_persist demo_persist [d2] manager1 [] with
      | (r2, manager2, _) =>
          r1 = Ok [] /\ vectorstore _ manager1 = Some [d1] /\
          r2 = Ok ["doc-1"] /\ vectorstore _ manager2 = Some [d1; d2]
      end
  end.
Proof. vm_compute. auto. Qed.


(** ** More runs of the manager *)

Definition demo_delete (vs : list Document) : option Exc := None.
Definition demo_no_persist (vs : list Document) : bool := false.
Definition demo_document : Document :=
  mkDocument "hello world" [("source", "a.txt")].
Definition demo_full_manager : VectorStoreManager (list Document) :=
  mkManager (list Document) "./chroma_db" "rag_documents" (Some [demo_document]).

Lemma add_documents_makes_store_available_witness :
  exists vs,
    vectorstore _ demo_full_manager = Some vs
    /\ (forall k,
          get_retriever _ k demo_full_manager =
          Ok (mkRetriever _ vs (match k with Some n => n | None => 4 end)))
    /\ (forall more out2,
          more <> [] ->
          (add_documents _ demo_from_documents demo_add demo_has_persist
             demo_persist more demo_full_manager out2).1.1 =
          (demo_add vs more).1).
Proof.
  apply (add_documents_makes_store_available (list Document)
           demo_from_documents demo_add demo_has_persist demo_persist
           [demo_document] demo_manager [] []
           demo_full_manager
           [ "Creating vector store with 1 documents";
             "✓ Successfully added 1 documents to vector store" ]).
  - discriminate.
  - vm_compute. reflexivity.
Defined.

Lemma delete_collection_leaves_empty_manager_witness :
  vectorstore _ demo_manager = None
  /\ persist_directory _ demo_manager = persist_directory _ demo_full_manager
  /\ collection_name _ demo_manager = collection_name _ demo_full_manager
  /\ (forall query k filter o,
        (similarity_search (list Document)
           (fun vs _ _ _ => Ok vs) query k filter demo_manager o).1 = Ok [] /\
        (similarity_search_with_score (list Document) nat
           (fun vs _ _ _ => Ok (map (fun d => (d, 0%nat)) vs))
           query k filter demo_manager o).1 = Ok [])
  /\ get_collection_count (list Document) (fun vs => Ok (length vs))
       demo_manager = 0%nat
  /\ list_collections (list Document) (fun vs => Ok ["rag_documents"])
       demo_manager = []
  /\ (forall k,
        get_retriever _ k demo_manager =
        Raise (mkExc ValueError
                 "Vector store is empty. Please add documents first."))
  /\ delete_collection (list Document) demo_delete demo_manager
       ["✓ Deleted collection: rag_documents"] =
     (Ok tt, demo_manager, ["✓ Deleted collection: rag_documents"])
  /\ (forall documents vs,
        documents <> [] ->
        demo_from_documents documents
          (persist_directory _ demo_full_manager)
          (collection_name _ demo_full_manager) = Ok vs ->
        demo_no_persist vs = false ->
        (add_documents _ demo_from_documents demo_add demo_no_persist
           demo_persist documents demo_manager
           ["✓ Deleted collection: rag_documents"]).1 =
        (Ok [], set_store _ demo_manager (Some vs))).
Proof.
  apply (delete_collection_leaves_empty_manager (list Document) nat
           demo_from_documents demo_add demo_no_persist demo_persist
           demo_delete
           (fun vs _ _ _ => Ok vs)
           (fun vs _ _ _ => Ok (map (fun d => (d, 0%nat)) vs))
           (fun vs => Ok (length vs))
           (fun vs => Ok ["rag_documents"])
           demo_full_manager [] demo_manager
           ["✓ Deleted collection: rag_documents"]).
  vm_compute. reflexivity.
Defined.


End VectorStore.

(* ===================================================================== *)
(** * rag_chain.py: the conversational chain *)
(* ===================================================================== *)

Module RagChain.
Import Py.
Import VectorStore.

(** ** The framework objects the chatbot holds

    The chatbot builds two objects of the chain framework and calls their
    methods: the conversation memory ([ConversationBufferMemory]) and the
    retrieval chain ([ConversationalRetrievalChain]).  What follows states
    the part of their behaviour the chatbot relies on. *)

(** A chat message.  [msg_type] is the attribute [type] ("human", "ai"),
    when the object has one. *)
Record Message := mkMessage {
  msg_type : option string;
  msg_content : string
}.

Definition HumanMessage (content : string) : Message :=
  mkMessage (Some "human") content.
Definition AIMessage (content : string) : Message :=
  mkMessage (Some "ai") content.

(** The fields of a [ConversationBufferMemory]; [messages] is
    [chat_memory.messages].  The class declares no token limit. *)
Record ConversationBufferMemory := mkMemory {
  buffer_memory_key : string;
  return_messages : bool;
  output_key : string;
  messages : list Message
}.

(** The constructor call of [RAGChatbot.__init__].  The buffer class has
    no field for [max_token_limit]: the keyword is dropped. *)
Definition new_memory (memory_key : string) (return_messages : bool)
  (output_key : string) (max_token_limit : Z) : ConversationBufferMemory :=
  mkMemory memory_key return_messages output_key [].

(** [memory.save_context]: the question and the answer go to the end of
    the buffer. *)
Definition save_context (question answer : string)
  (m : ConversationBufferMemory) : ConversationBufferMemory :=
  mkMemory (buffer_memory_key m) (return_messages m) (output_key m)
    (messages m ++ [HumanMessage question; AIMessage answer]).

(** [memory.clear()] *)
Definition clear (m : ConversationBufferMemory) : ConversationBufferMemory :=
  mkMemory (buffer_memory_key m) (return_messages m) (output_key m) [].

(** What the chain returns: a mapping that may hold "answer" and
    "source_documents". *)
Record Response := mkResponse {
  response_answer : option string;
  response_sources : option (list Document)
}.

(** What [chat] returns. *)
Record Reply := mkReply {
  answer : string;
  source_documents : list Document
}.

(** What the chatbot does to the world outside it: [EvInvoke] is a call
    of [chain.invoke], the only place where the LLM client is called. *)
Inductive Event :=
| EvFromLLM
| EvInvoke (question : string).

Record World := mkWorld {
  events : list Event;
  stdout : list string
}.

Definition is_invoke (ev : Event) : bool :=
  match ev with EvInvoke _ => true | EvFromLLM => false end.

(** The number of chain invocations so far. *)
Definition invocations (w : World) : nat :=
  length (List.filter is_invoke (events w)).

Definition print (line : string) (w : World) : World :=
  mkWorld (events w) (stdout w ++ [line]).

Definition record (ev : Event) (w : World) : World :=
  mkWorld (events w ++ [ev]) (stdout w).

Definition no_documents_answer : string :=
  "I don't have any documents to answer questions from. Please upload documents first.".

Section Chatbot.

(** The vector database and the LLM client. *)
Variable Chroma : Type.
Variable LLM : Type.

(** The fields of a [ConversationalRetrievalChain] that [from_llm] is
    given.  Its memory is the chatbot's memory object itself, which is why
    the chatbot below has one memory field and the chain none. *)
Record Chain := mkChain {
  chain_llm : LLM;
  chain_retriever : Retriever Chroma;
  chain_return_source_documents : bool;
  chain_verbose : bool
}.

(** [ConversationalRetrievalChain.from_llm]: [None] when it returns the
    chain, the exception it raises otherwise. *)
Variable from_llm_error : LLM -> Retriever Chroma -> option Exc.
(** One run of the chain on a question and the history: retrieval, the
    prompt, the call of the LLM. *)
Variable chain_call : Chain -> list Message -> string -> result Response.
(** The calls of the vector database behind [add_documents]. *)
Variable from_documents : list Document -> string -> string -> result Chroma.
Variable store_add_documents :
  Chroma -> list Document -> result (list string) * Chroma.
Variable has_persist : Chroma -> bool.
Variable persist : Chroma -> result unit * Chroma.

(** The fields of a [RAGChatbot]. *)
Record RAGChatbot := mkChatbot {
  memory_key : string;
  return_source_documents : bool;
  verbose : bool;
  llm : LLM;
  vector_store_manager : VectorStoreManager Chroma;
  memory : ConversationBufferMemory;
  chain : option Chain
}.

Definition set_chain (self : RAGChatbot) (c : option Chain) : RAGChatbot :=
  mkChatbot (memory_key self) (return_source_documents self) (verbose self)
    (llm self) (vector_store_manager self) (memory self) c.

Definition set_memory (self : RAGChatbot) (m : ConversationBufferMemory)
  : RAGChatbot :=
  mkChatbot (memory_key self) (return_source_documents self) (verbose self)
    (llm self) (vector_store_manager self) m (chain self).

Definition set_manager (self : RAGChatbot) (v : VectorStoreManager Chroma)
  : RAGChatbot :=
  mkChatbot (memory_key self) (return_source_documents self) (verbose self)
    (llm self) v (memory self) (chain self).

(** [chain.invoke({"question": question})]: the chain runs; when it
    returns, the question and the answer are saved to the memory; when it
    raises, or returns no answer to save, the memory stays as it was. *)
Definition invoke (c : Chain) (question : string)
  (m : ConversationBufferMemory) (w : World)
  : result Response * ConversationBufferMemory * World :=
  let w' := record (EvInvoke question) w in
  match chain_call c (messages m) question with
  | Raise e => (Raise e, m, w')
  | Ok response =>
      match response_answer response with
      | None => (Raise (mkExc KeyError "'answer'"), m, w')
      | Some a => (Ok response, save_context question a m, w')
      end
  end.

(** The [except] branch of [_initialize_chain]. *)
Definition chain_not_built (self : RAGChatbot) (e : Exc) (w : World)
  : RAGChatbot * World :=
  (set_chain self None,
   print "Please add documents to the vector store first."
     (print ("Warning: Could not initialize chain yet: " +:+ exc_str e) w)).

(** [_initialize_chain] *)
Definition _initialize_chain (self : RAGChatbot) (w : World)
  : RAGChatbot * World :=
  match get_retriever Chroma (Some 4) (vector_store_manager self) with
  | Raise e => chain_not_built self e w
  | Ok retriever =>
      let w1 := record EvFromLLM w in
      match from_llm_error (llm self) retriever with
      | Some e => chain_not_built self e w1
      | None =>
          (set_chain self
             (Some (mkChain (llm self) retriever
                      (return_source_documents self) (verbose self))),
           print "✓ RAG Chain initialized successfully" w1)
      end
  end.

(** [reinitialize_chain] *)
Definition reinitialize_chain (self : RAGChatbot) (w : World)
  : RAGChatbot * World :=
  _initialize_chain self w.

(** [RAGChatbot.__init__], given the manager LLM and the vector store
    manager the two accessors return. *)
Definition __init__ (memory_key : string) (return_source_documents : bool)
  (max_tokens_limit : Z) (verbose : bool)
  (the_llm : LLM) (manager : VectorStoreManager Chroma) (w : World)
  : RAGChatbot * World :=
  let w1 := print "Initializing LLM..." w in
  let w2 := print "Initializing vector store..." w1 in
  _initialize_chain
    (mkChatbot memory_key return_source_documents verbose the_llm manager
       (new_memory memory_key true "answer" max_tokens_limit) None)
    w2.

(** The mapping [chat] returns for a response of the chain: its answer
    and its source documents, or the empty string and the empty list where
    the response has none. *)
Definition reply_of (response : Response) : Reply :=
  mkReply
    (match response_answer response with Some a => a | None => "" end)
    (match response_sources response with Some d => d | None => [] end).

(** [chat]: the reply, the chatbot after the call, the world after the
    call. *)
Definition chat (question : string) (self : RAGChatbot) (w : World)
  : Reply * RAGChatbot * World :=
  let '(self1, w1) :=
    match chain self with
    | None => _initialize_chain self w
    | Some _ => (self, w)
    end in
  match chain self1 with
  | None => (mkReply no_documents_answer [], self1, w1)
  | Some c =>
      match invoke c question (memory self1) w1 with
      | (Ok response, m, w2) => (reply_of response, set_memory self1 m, w2)
      | (Raise e, m, w2) =>
          (mkReply ("An error occurred: " +:+ exc_str e) [],
           set_memory self1 m, w2)
      end
  end.

(** [get_chat_history]: one mapping with "role" and "content" for every
    message that has a [type]. *)
Definition get_chat_history (self : RAGChatbot) : list (pydict string) :=
  flat_map
    (fun msg =>
       match msg_type msg with
       | Some t => [[("role", t); ("content", msg_content msg)]]
       | None => []
       end)
    (messages (memory self)).

(** [clear_memory] *)
Definition clear_memory (self : RAGChatbot) (w : World)
  : RAGChatbot * World :=
  (set_memory self (clear (memory self)),
   print "✓ Conversation memory cleared" w).

(** [add_documents_to_store]: an exception of the vector store manager
    goes through; otherwise the chain is built again. *)
Definition add_documents_to_store (documents : list Document)
  (self : RAGChatbot) (w : World) : result unit * RAGChatbot * World :=
  match add_documents Chroma from_documents store_add_documents has_persist
          persist documents (vector_store_manager self) (stdout w) with
  | (Raise e, manager, out) =>
      (Raise e, set_manager self manager, mkWorld (events w) out)
  | (Ok _, manager, out) =>
      let '(self', w') :=
        reinitialize_chain (set_manager self manager)
          (mkWorld (events w) out) in
      (Ok tt, self', print "✓ Documents added and chain reinitialized" w')
  end.

(** A conversation: the questions asked one after the other. *)
Fixpoint chat_turns (questions : list string) (self : RAGChatbot) (w : World)
  : RAGChatbot * World :=
  match questions with
  | [] => (self, w)
  | q :: rest =>
      match chat q self w with
      | (_, self', w') => chat_turns rest self' w'
      end
  end.

(** The tokens held by the memory, for a tokenizer [count]. *)
Definition buffer_tokens (count : string -> nat) (m : ConversationBufferMemory)
  : nat :=
  list_sum (map (fun msg => count (msg_content msg)) (messages m)).

(** [chat_stream], run to its end: what it yields, the chatbot and the
    world after it. *)
Definition chat_stream (question : string) (self : RAGChatbot) (w : World)
  : list string * RAGChatbot * World :=
  let '(self1, w1) :=
    match chain self with
    | None => _initialize_chain self w
    | Some _ => (self, w)
    end in
  match chain self1 with
  | None => ([no_documents_answer], self1, w1)
  | Some _ =>
      let '(response, self2, w2) := chat question self1 w1 in
      ([answer response], self2, w2)
  end.

(** What a user of a chatbot can do to it. *)
Inductive Op :=
| OpChat (question : string)
| OpChatStream (question : string)
| OpClear
| OpReinitialize
| OpAddDocuments (documents : list Document).

Definition run_op (op : Op) (self : RAGChatbot) (w : World)
  : RAGChatbot * World :=
  match op with
  | OpChat q => let '(_, self', w') := chat q self w in (self', w')
  | OpChatStream q => let '(_, self', w') := chat_stream q self w in (self', w')
  | OpClear => clear_memory self w
  | OpReinitialize => reinitialize_chain self w
  | OpAddDocuments d =>
      let '(_, self', w') := add_documents_to_store d self w in (self', w')
  end.

Fixpoint run_ops (ops : list Op) (self : RAGChatbot) (w : World)
  : RAGChatbot * World :=
  match ops with
  | [] => (self, w)
  | op :: rest =>
      let '(self', w') := run_op op self w in run_ops rest self' w'
  end.

(** The two entries of the history for one turn. *)
Definition turn_entries (turn : string * string) : list (pydict string) :=
  [ [("role", "human"); ("content", turn.1)];
    [("role", "ai"); ("content", turn.2)] ].

(** ** Properties of the chatbot *)

Lemma invocations_print line w : invocations (print line w) = invocations w.
Proof. reflexivity. Qed.

Lemma invocations_record_invoke q w :
  invocations (record (EvInvoke q) w) = S (invocations w).
Proof.
  unfold invocations, record; simpl.
  rewrite List.filter_app, length_app; simpl. lia.
Qed.

Lemma invocations_record_from_llm w :
  invocations (record EvFromLLM w) = invocations w.
Proof.
  unfold invocations, record; simpl.
  rewrite List.filter_app, length_app; simpl. lia.
Qed.

(** Building the chain touches only the [chain] field and never calls
    the LLM. *)
Lemma initialize_chain_frame self w :
  let '(self', w') := _initialize_chain self w in
  memory self' = memory self /\
  vector_store_manager self' = vector_store_manager self /\
  llm self' = llm self /\
  invocations w' = invocations w.
Proof.
  unfold _initialize_chain, chain_not_built.
  destruct (get_retriever _ _ _) as [retriever|e]; simpl.
  - destruct (from_llm_error _ _); simpl;
      rewrite ?invocations_print, ?invocations_record_from_llm; auto.
  - rewrite ?invocations_print; auto.
Qed.

(** With no vector store the retriever cannot be had, so the chain is
    not built and nothing outside the chatbot is called. *)
Lemma initialize_chain_without_store self w :
  vectorstore Chroma (vector_store_manager self) = None ->
  chain (_initialize_chain self w).1 = None /\
  events (_initialize_chain self w).2 = events w.
Proof.
  intros Hnone. unfold _initialize_chain, get_retriever. by rewrite Hnone.
Qed.

(** C4.  When the chain is not built and building it fails, [chat]
    returns the fixed answer with no source documents, and [chain.invoke]
    is not called: the number of chain invocations, the only calls of the
    LLM client, is what it was.  When it fails for want of a vector store,
    nothing outside the chatbot is called at all. *)
Theorem chat_without_chain_short_circuits question self w :
  chain self = None ->
  chain (_initialize_chain self w).1 = None ->
  let '(reply, self', w') := chat question self w in
  reply =
    mkReply "I don't have any documents to answer questions from. Please upload documents first." []
  /\ invocations w' = invocations w
  /\ chain self' = None
  /\ memory self' = memory self
  /\ (vectorstore Chroma (vector_store_manager self) = None ->
      events w' = events w).
Proof.
  intros Hchain Hinit. unfold chat. rewrite Hchain.
  pose proof (initialize_chain_frame self w) as Hframe.
  pose proof (initialize_chain_without_store self w) as Hstore.
  destruct (_initialize_chain self w) as [self1 w1]. simpl in Hinit.
  rewrite Hinit. destruct Hframe as (Hmem & _ & _ & Hinv).
  repeat split; try done. intros Hnone. by apply Hstore.
Qed.

(** C5.  With the chain built, an exception raised by [chain.invoke] does
    not leave [chat]: the reply carries "An error occurred: " and the
    text of the exception, with no source documents.  The chain and the
    memory are what they were, and the next request goes to the chain
    again. *)
Theorem chat_turns_chain_error_into_reply question self w c e :
  chain self = Some c ->
  (invoke c question (memory self) w).1.1 = Raise e ->
  let '(reply, self', w') := chat question self w in
  reply = mkReply ("An error occurred: " +:+ exc_str e) []
  /\ chain self' = Some c
  /\ memory self' = memory self
  /\ forall question2 response m w2,
       invoke c question2 (memory self') w' = (Ok response, m, w2) ->
       chat question2 self' w' = (reply_of response, set_memory self' m, w2).
Proof.
  intros Hchain Hraise. unfold chat. rewrite Hchain. simpl. rewrite Hchain.
  assert (Hmem : forall r m w2,
             invoke c question (memory self) w = (r, m, w2) ->
             is_ok r = false -> m = memory self).
  { unfold invoke. intros r m w2 H Hr.
    destruct (chain_call _ _ _) as [response|e']; [|by simplify_eq].
    destruct (response_answer response); by simplify_eq. }
  destruct (invoke c question (memory self) w) as [[r m] w2] eqn:Hinv.
  simpl in Hraise. subst r.
  rewrite (Hmem _ _ _ eq_refl eq_refl).
  repeat split; try done.
  intros question2 response m2 w3 Hinv2.
  cbn [chain set_memory memory] in *.
  rewrite Hchain. cbn [chain set_memory memory].
  by rewrite Hchain, Hinv2.
Qed.

(** C9.  After any conversation, [clear_memory] leaves a chatbot whose
    history is empty, and changes the message buffer only: the chain, the
    vector store manager, the LLM, the settings of the chatbot and of its
    memory are the same objects as before, and neither the chain builder
    nor the chain is called. *)
Theorem clear_memory_empties_history_only questions self w :
  let '(self1, w1) := chat_turns questions self w in
  let '(self2, w2) := clear_memory self1 w1 in
  get_chat_history self2 = []
  /\ chain self2 = chain self1
  /\ vector_store_manager self2 = vector_store_manager self1
  /\ llm self2 = llm self1
  /\ memory_key self2 = memory_key self1
  /\ return_source_documents self2 = return_source_documents self1
  /\ verbose self2 = verbose self1
  /\ memory self2 =
       mkMemory (buffer_memory_key (memory self1))
         (return_messages (memory self1)) (output_key (memory self1)) []
  /\ events w2 = events w1.
Proof.
  destruct (chat_turns questions self w) as [self1 w1].
  unfold clear_memory, get_chat_history. simpl. done.
Qed.

(** A successful turn puts the question and the answer at the end of the
    buffer and removes nothing. *)
Lemma chat_appends_turn question self w c response a :
  chain self = Some c ->
  chain_call c (messages (memory self)) question = Ok response ->
  response_answer response = Some a ->
  messages (memory (chat question self w).1.2) =
  messages (memory self) ++ [HumanMessage question; AIMessage a].
Proof.
  intros Hchain Hcall Hans. unfold chat, invoke.
  rewrite Hchain. simpl. rewrite Hchain, Hcall, Hans. done.
Qed.

(** The memory of a new chatbot is the empty buffer, whatever limit the
    constructor was given. *)
Lemma init_memory_ignores_limit memory_key rsd max_tokens_limit verbose
  the_llm manager w :
  memory (__init__ memory_key rsd max_tokens_limit verbose the_llm manager w).1
  = mkMemory memory_key true "answer" [].
Proof.
  unfold __init__.
  match goal with
  | |- context [_initialize_chain ?b ?x] =>
      pose proof (initialize_chain_frame b x) as Hframe;
      destruct (_initialize_chain b x) as [bot w1]
  end.
  destruct Hframe as (Hmem & _). simpl in *. by rewrite Hmem.
Qed.

(** C1.  No turn is ever trimmed: a successful turn leaves the whole
    buffer in place and puts the question and the answer after it, so the
    tokens held grow by those of the question and of the answer, for any
    tokenizer [count] and whatever limit the chatbot was built with. *)
Theorem memory_keeps_every_turn (count : string -> nat)
  question self w c response a :
  chain self = Some c ->
  chain_call c (messages (memory self)) question = Ok response ->
  response_answer response = Some a ->
  messages (memory (chat question self w).1.2) =
    messages (memory self) ++ [HumanMessage question; AIMessage a]
  /\ buffer_tokens count (memory (chat question self w).1.2) =
     (buffer_tokens count (memory self) + count question + count a)%nat.
Proof.
  intros Hchain Hcall Hans.
  pose proof (chat_appends_turn question self w c response a
                Hchain Hcall Hans) as Happ.
  split; [done|].
  unfold buffer_tokens. rewrite Happ, map_app, list_sum_app. simpl. lia.
Qed.

(** ** More on conversations *)

(** [chat_stream] is [chat] with the answer put in a list. *)
Lemma chat_stream_is_chat question self w :
  chat_stream question self w =
  let '(response, self', w') := chat question self w in
  ([answer response], self', w').
Proof.
  unfold chat_stream. destruct (chain self) as [c|] eqn:Hc.
  - rewrite Hc. by destruct (chat question self w) as [[response self'] w'].
  - unfold chat at 2. rewrite Hc.
    destruct (_initialize_chain self w) as [self1 w1].
    destruct (chain self1) as [c1|] eqn:Hc1; [|done].
    unfold chat. rewrite Hc1. simpl. rewrite Hc1.
    by destruct (invoke c1 question (memory self1) w1) as [[[r|e] m] w2].
Qed.

(** The streaming call does not stream: it yields one piece, the whole
    answer [chat] returns for the question, and leaves the chatbot and the
    world as [chat] leaves them. *)
Theorem chat_stream_yields_chat_answer question self w :
  chat_stream question self w =
  let '(response, self', w') := chat question self w in
  ([answer response], self', w').
Proof. exact (chat_stream_is_chat question self w). Qed.

(** The history after one call of [chat]. *)
Lemma chat_history_step question self w :
  let '(response, self', w') := chat question self w in
  (get_chat_history self' =
     get_chat_history self ++ turn_entries (question, answer response)
   /\ invocations w' = S (invocations w))
  \/
  (get_chat_history self' = get_chat_history self
   /\ (answer response = no_documents_answer \/
       exists e, answer response = "An error occurred: " +:+ exc_str e)).
Proof.
  unfold chat.
  pose proof (initialize_chain_frame self w) as Hframe.
  assert (Hturn : forall c self1 w1,
             memory self1 = memory self ->
             invocations w1 = invocations w ->
             let '(response, self', w') :=
               match invoke c question (memory self1) w1 with
               | (Ok response, m, w2) =>
                   (reply_of response, set_memory self1 m, w2)
               | (Raise e, m, w2) =>
                   (mkReply ("An error occurred: " +:+ exc_str e) [],
                    set_memory self1 m, w2)
               end in
             (get_chat_history self' =
                get_chat_history self ++ turn_entries (question, answer response)
              /\ invocations w' = S (invocations w))
             \/
             (get_chat_history self' = get_chat_history self
              /\ (answer response = no_documents_answer \/
                  exists e,
                    answer response = "An error occurred: " +:+ exc_str e))).
  { intros c self1 w1 Hmem Hinv. unfold invoke, get_chat_history.
    rewrite Hmem.
    destruct (chain_call c (messages (memory self)) question)
      as [response|e].
    - destruct (response_answer response) as [a|] eqn:Ha; simpl.
      + left. split.
        * unfold reply_of. rewrite Ha. simpl. by rewrite flat_map_app.
        * by rewrite invocations_record_invoke, Hinv.
      + right. split; [done|]. right.
        by exists (mkExc KeyError "'answer'").
    - simpl. right. split; [done|]. right. by exists e. }
  destruct (chain self) as [c|] eqn:Hc.
  - rewrite Hc. by apply Hturn.
  - destruct (_initialize_chain self w) as [self1 w1].
    destruct Hframe as (Hmem & _ & _ & Hinv).
    destruct (chain self1) as [c1|]; [by apply Hturn|].
    right. unfold get_chat_history. rewrite Hmem. split; [done|]. by left.
Qed.

(** What a turn does to the history.  Either the chain was invoked and
    returned: then the history gains the question as a human entry and the
    reply's answer as an ai entry, in this order.  Or the reply is the
    fixed answer or an error text: then the history is what it was, the
    question is not recorded. *)
Theorem chat_records_answered_turns_only question self w :
  let '(response, self', w') := chat question self w in
  (get_chat_history self' =
     get_chat_history self ++ turn_entries (question, answer response)
   /\ invocations w' = S (invocations w))
  \/
  (get_chat_history self' = get_chat_history self
   /\ (answer response = no_documents_answer \/
       exists e, answer response = "An error occurred: " +:+ exc_str e)).
Proof. exact (chat_history_step question self w). Qed.

(** The history is made of whole turns.  From a new chatbot on, whatever
    is done to it (questions asked, streamed or not, memory cleared, chain
    rebuilt, documents added), the history is a sequence of pairs: a human
    entry followed by the ai entry that answers it. *)
Definition whole_turns (self : RAGChatbot) : Prop :=
  exists turns, get_chat_history self = flat_map turn_entries turns.

Lemma whole_turns_memory self self' :
  memory self' = memory self -> whole_turns self -> whole_turns self'.
Proof.
  unfold whole_turns, get_chat_history. by intros ->.
Qed.

Lemma chat_keeps_whole_turns question self w :
  whole_turns self -> whole_turns (chat question self w).1.2.
Proof.
  intros [turns Hturns].
  pose proof (chat_history_step question self w) as H.
  destruct (chat question self w) as [[response self'] w']. simpl.
  destruct H as [[H _]|[H _]].
  - exists (turns ++ [(question, answer response)]).
    rewrite H, Hturns, flat_map_app. simpl. by rewrite ?app_nil_r.
  - exists turns. by rewrite H.
Qed.

Lemma add_documents_to_store_frame documents self w :
  let '(r, self', w') := add_documents_to_store documents self w in
  memory self' = memory self /\ llm self' = llm self /\
  invocations w' = invocations w.
Proof.
  unfold add_documents_to_store, reinitialize_chain.
  destruct (add_documents _ _ _ _ _ _ _ _) as [[[ids|e] manager] out];
    [|done].
  match goal with
  | |- context [_initialize_chain ?b ?x] =>
      pose proof (initialize_chain_frame b x) as Hframe;
      destruct (_initialize_chain b x) as [self1 w1]
  end.
  destruct Hframe as (Hmem & _ & Hllm & Hinv). done.
Qed.

Lemma run_op_keeps_whole_turns op self w :
  whole_turns self -> whole_turns (run_op op self w).1.
Proof.
  intros Hself. destruct op as [q|q| | |d]; simpl.
  - pose proof (chat_keeps_whole_turns q self w Hself) as H.
    by destruct (chat q self w) as [[response self'] w'].
  - rewrite chat_stream_is_chat.
    pose proof (chat_keeps_whole_turns q self w Hself) as H.
    by destruct (chat q self w) as [[response self'] w'].
  - by exists [].
  - pose proof (initialize_chain_frame self w) as H.
    unfold reinitialize_chain.
    destruct (_initialize_chain self w) as [self' w'].
    destruct H as (Hmem & _). by apply (whole_turns_memory self).
  - pose proof (add_documents_to_store_frame d self w) as H.
    destruct (add_documents_to_store d self w) as [[r self'] w'].
    destruct H as (Hmem & _). by apply (whole_turns_memory self).
Qed.

(** The history of a chatbot reached from a new one by any sequence of
    operations is a sequence of whole turns: human entry, then ai
    entry. *)
Theorem history_is_made_of_whole_turns
  memory_key rsd max_tokens_limit verbose the_llm manager w ops :
  let '(bot, w0) :=
    __init__ memory_key rsd max_tokens_limit verbose the_llm manager w in
  let '(self, _) := run_ops ops bot w0 in
  exists turns, get_chat_history self = flat_map turn_entries turns.
Proof.
  pose proof (init_memory_ignores_limit memory_key rsd max_tokens_limit
                verbose the_llm manager w) as Hinit.
  destruct (__init__ _ _ _ _ _ _ _) as [bot w0]. simpl in Hinit.
  assert (Hbot : whole_turns bot).
  { exists []. unfold get_chat_history. by rewrite Hinit. }
  clear Hinit. revert bot w0 Hbot.
  induction ops as [|op rest IH]; intros bot w0 Hbot; simpl; [done|].
  pose proof (run_op_keeps_whole_turns op bot w0 Hbot) as Hstep.
  destruct (run_op op bot w0) as [self1 w1]. by apply IH.
Qed.

(** Adding documents through the chatbot keeps the conversation and
    calls no LLM; when the addition returns, the chain is built again on
    the store as the addition left it, or is absent when it cannot be
    built. *)
Theorem add_documents_to_store_rebuilds_chain documents self w self' w' :
  add_documents_to_store documents self w = (Ok tt, self', w') ->
  memory self' = memory self
  /\ invocations w' = invocations w
  /\ match vectorstore Chroma (vector_store_manager self') with
     | None => chain self' = None
     | Some vs =>
         match from_llm_error (llm self) (mkRetriever Chroma vs 4) with
         | Some _ => chain self' = None
         | None =>
             chain self' =
             Some (mkChain (llm self) (mkRetriever Chroma vs 4)
                     (return_source_documents self) (verbose self))
         end
     end.
Proof.
  intros Hadd.
  pose proof (add_documents_to_store_frame documents self w) as Hframe.
  rewrite Hadd in Hframe. destruct Hframe as (Hmem & _ & Hinv).
  split; [done|]. split; [done|].
  unfold add_documents_to_store, reinitialize_chain, _initialize_chain,
    get_retriever, chain_not_built in Hadd.
  destruct (add_documents _ _ _ _ _ _ _ _) as [[[ids|e] manager] out];
    [|done]. simpl in Hadd.
  destruct (vectorstore Chroma manager) as [vs|] eqn:Hvs.
  - destruct (from_llm_error (llm self) (mkRetriever Chroma vs 4)) eqn:Hllm;
      simplify_eq/=; by rewrite Hvs, Hllm.
  - simplify_eq/=. by rewrite Hvs.
Qed.

(** A failure of the vector store manager goes through
    [add_documents_to_store].  When the manager's [add_documents] raises,
    the method raises the same exception and the chain is not built
    again: the chatbot keeps the chain and the conversation it had, holds
    the manager as the failed addition left it, and neither the chain
    builder nor the chain is called.  And the method raises in no other
    way: building the chain again never raises. *)
Theorem add_documents_to_store_failure_keeps_chain documents self w e :
  (forall manager out,
      add_documents Chroma from_documents store_add_documents has_persist
        persist documents (vector_store_manager self) (stdout w)
      = (Raise e, manager, out) ->
      exists self' w',
        add_documents_to_store documents self w = (Raise e, self', w')
        /\ chain self' = chain self
        /\ memory self' = memory self
        /\ vector_store_manager self' = manager
        /\ events w' = events w
        /\ stdout w' = out)
  /\
  (forall self' w',
      add_documents_to_store documents self w = (Raise e, self', w') ->
      (add_documents Chroma from_documents store_add_documents has_persist
         persist documents (vector_store_manager self) (stdout w)).1.1
      = Raise e).
Proof.
  unfold add_documents_to_store, reinitialize_chain. split.
  - intros manager out Hadd. rewrite Hadd.
    by exists (set_manager self manager), (mkWorld (events w) out).
  - intros self' w' Hcall.
    destruct (add_documents _ _ _ _ _ _ _ _) as [[[ids|e0] manager] out].
    + by destruct (_initialize_chain _ _).
    + by simplify_eq.
Qed.

End Chatbot.

(** ** A chatbot to run *)

(** The database and the LLM are single values; the chain builder always
    returns; [demo_chain] answers with the question, [demo_failing_chain]
    raises. *)
Definition demo_from_llm (l : unit) (r : Retriever unit) : option Exc := None.
Definition demo_chain (c : Chain unit unit) (history : list Message)
  (question : string) : result Response :=
  Ok (mkResponse (Some ("You asked: " +:+ question)) (Some [])).
Definition demo_failing_chain (c : Chain unit unit) (history : list Message)
  (question : string) : result Response :=
  Raise (mkExc (OtherError "RateLimitError") "rate limit exceeded").

Definition demo_chat_world : World := mkWorld [] [].

(** A chatbot created over an empty store, and one over a store that
    exists, with a budget of three tokens. *)
Definition demo_bot_without_store : RAGChatbot unit unit :=
  (__init__ unit unit demo_from_llm "chat_history" true 3 false tt
     (mkManager unit "./chroma_db" "rag_documents" None) demo_chat_world).1.
Definition demo_bot_ready : RAGChatbot unit unit :=
  (__init__ unit unit demo_from_llm "chat_history" true 3 false tt
     (mkManager unit "./chroma_db" "rag_documents" (Some tt)) demo_chat_world).1.

Definition demo_ready_chain : Chain unit unit :=
  mkChain unit unit tt (mkRetriever unit tt 4) true false.

(** A tokenizer: one token per word. *)
Definition count_words (s : string) : nat := length (String.words s).

Lemma chat_without_chain_witness :
  let '(reply, self', w') :=
    chat unit unit demo_from_llm demo_chain "hello" demo_bot_without_store
      demo_chat_world in
  reply =
    mkReply "I don't have any documents to answer questions from. Please upload documents first." []
  /\ invocations w' = invocations demo_chat_world
  /\ chain _ _ self' = None
  /\ memory _ _ self' = memory _ _ demo_bot_without_store
  /\ (vectorstore unit (vector_store_manager _ _ demo_bot_without_store) = None ->
      events w' = events demo_chat_world).
Proof.
  apply (chat_without_chain_short_circuits unit unit demo_from_llm demo_chain
           "hello" demo_bot_without_store demo_chat_world);
    reflexivity.
Defined.

Lemma chat_turns_chain_error_into_reply_witness :
  let '(reply, self', w') :=
    chat unit unit demo_from_llm demo_failing_chain "hello" demo_bot_ready
      demo_chat_world in
  reply = mkReply "An error occurred: rate limit exceeded" []
  /\ chain _ _ self' = Some demo_ready_chain
  /\ memory _ _ self' = memory _ _ demo_bot_ready
  /\ forall question2 response m w2,
       invoke unit unit demo_failing_chain demo_ready_chain question2
         (memory _ _ self') w' = (Ok response, m, w2) ->
       chat unit unit demo_from_llm demo_failing_chain question2 self' w' =
       (reply_of response, set_memory _ _ self' m, w2).
Proof.
  apply (chat_turns_chain_error_into_reply unit unit demo_from_llm
           demo_failing_chain "hello" demo_bot_ready demo_chat_world
           demo_ready_chain
           (mkExc (OtherError "RateLimitError") "rate limit exceeded"));
    reflexivity.
Defined.

(** One turn with a budget of three tokens: the memory holds the five
    words of the question and the seven of the answer. *)
Lemma memory_keeps_every_turn_witness :
  let m :=
    memory _ _
      (chat unit unit demo_from_llm demo_chain
         "what is retrieval augmented generation" demo_bot_ready
         demo_chat_world).1.2 in
  (messages m =
     messages (memory _ _ demo_bot_ready) ++
     [ HumanMessage "what is retrieval augmented generation";
       AIMessage "You asked: what is retrieval augmented generation" ]
   /\ buffer_tokens count_words m =
      (buffer_tokens count_words (memory _ _ demo_bot_ready)
       + count_words "what is retrieval augmented generation"
       + count_words "You asked: what is retrieval augmented generation")%nat)
  /\ buffer_tokens count_words m = 12%nat
  /\ (3 < buffer_tokens count_words m)%nat.
Proof.
  split.
  - apply (memory_keeps_every_turn unit unit demo_from_llm demo_chain
             count_words "what is retrieval augmented generation"
             demo_bot_ready demo_chat_world demo_ready_chain
             (mkResponse
                (Some "You asked: what is retrieval augmented generation")
                (Some [])));
      reflexivity.
  - vm_compute. split; [reflexivity|lia].
Defined.

(** Before any document the chatbot gives the fixed answer; once
    documents are added through it, the chain is built and answers. *)
Example demo_chat_before_and_after_documents :
  let d := mkDocument "hello world" [("source", "a.txt")] in
  let '(reply1, self1, w1) :=
    chat unit unit demo_from_llm demo_chain "hello" demo_bot_without_store
      demo_chat_world in
  let '(r, self2, w2) :=
    add_documents_to_store unit unit demo_from_llm
      (fun _ _ _ => Ok tt) (fun vs _ => (Ok ["doc-0"], vs)) (fun _ => false)
      (fun vs => (Ok tt, vs)) [d] self1 w1 in
  let '(reply2, self3, w3) :=
    chat unit unit demo_from_llm demo_chain "hello" self2 w2 in
  answer reply1 = no_documents_answer /\ invocations w1 = 0%nat /\
  chain _ _ self2 = Some demo_ready_chain /\
  answer reply2 = "You asked: hello" /\ invocations w3 = 1%nat /\
  length (get_chat_history _ _ self3) = 2%nat.
Proof. vm_compute. auto 10. Qed.

(** Three turns, then a clear: the history is empty and the chain is the
    one built at creation. *)
Example demo_clear_after_turns :
  let '(self1, w1) :=
    chat_turns unit unit demo_from_llm demo_chain ["one"; "two"; "three"]
      demo_bot_ready demo_chat_world in
  let '(self2, w2) := clear_memory unit unit self1 w1 in
  length (get_chat_history _ _ self1) = 6%nat /\
  get_chat_history _ _ self2 = [] /\
  chain _ _ self2 = Some demo_ready_chain /\
  invocations w2 = 3%nat.
Proof. vm_compute. auto. Qed.


(** ** More runs of the chatbot *)

Definition demo_db_from (docs : list Document) (dir coll : string)
  : result unit := Ok tt.
Definition demo_db_add (vs : unit) (docs : list Document)
  : result (list string) * unit := (Ok ["doc-0"], vs).
Definition demo_db_add_fails (vs : unit) (docs : list Document)
  : result (list string) * unit :=
  (Raise (mkExc (OtherError "InvalidDimensionException") "dimension mismatch"),
   vs).
Definition demo_db_has_persist (vs : unit) : bool := false.
Definition demo_db_persist (vs : unit) : result unit * unit := (Ok tt, vs).

Definition demo_added : result unit * RAGChatbot unit unit * World :=
  add_documents_to_store unit unit demo_from_llm demo_db_from demo_db_add
    demo_db_has_persist demo_db_persist [mkDocument "hello world" []]
    demo_bot_without_store demo_chat_world.

Definition demo_not_added : result unit * RAGChatbot unit unit * World :=
  add_documents_to_store unit unit demo_from_llm demo_db_from
    demo_db_add_fails demo_db_has_persist demo_db_persist
    [mkDocument "hello world" []] demo_bot_ready demo_chat_world.

Lemma add_documents_to_store_rebuilds_chain_witness :
  memory _ _ demo_added.1.2 = memory _ _ demo_bot_without_store
  /\ invocations demo_added.2 = invocations demo_chat_world
  /\ match vectorstore unit (vector_store_manager _ _ demo_added.1.2) with
     | None => chain _ _ demo_added.1.2 = None
     | Some vs =>
         match demo_from_llm (llm _ _ demo_bot_without_store)
                 (mkRetriever unit vs 4) with
         | Some _ => chain _ _ demo_added.1.2 = None
         | None =>
             chain _ _ demo_added.1.2 =
             Some (mkChain _ _ (llm _ _ demo_bot_without_store)
                     (mkRetriever unit vs 4)
                     (return_source_documents _ _ demo_bot_without_store)
                     (verbose _ _ demo_bot_without_store))
         end
     end.
Proof.
  apply (add_documents_to_store_rebuilds_chain unit unit demo_from_llm
           demo_db_from demo_db_add demo_db_has_persist demo_db_persist
           [mkDocument "hello world" []] demo_bot_without_store
           demo_chat_world demo_added.1.2 demo_added.2).
  vm_compute. reflexivity.
Defined.

Lemma add_documents_to_store_failure_keeps_chain_witness :
  exists self' w',
    demo_not_added =
      (Raise (mkExc (OtherError "InvalidDimensionException")
                "dimension mismatch"), self', w')
    /\ chain _ _ self' = chain _ _ demo_bot_ready
    /\ memory _ _ self' = memory _ _ demo_bot_ready
    /\ vector_store_manager _ _ self' = vector_store_manager _ _ demo_bot_ready
    /\ events w' = events demo_chat_world
    /\ stdout w' =
       stdout demo_chat_world ++ ["Adding 1 documents to existing vector store"].
Proof.
  apply (proj1 (add_documents_to_store_failure_keeps_chain unit unit
                  demo_from_llm demo_db_from demo_db_add_fails
                  demo_db_has_persist demo_db_persist
                  [mkDocument "hello world" []] demo_bot_ready
                  demo_chat_world
                  (mkExc (OtherError "InvalidDimensionException")
                     "dimension mismatch"))).
  vm_compute. reflexivity.
Defined.

(** A conversation with every kind of operation in it. *)
Example demo_history_after_operations :
  let '(self, w) :=
    run_ops unit unit demo_from_llm demo_chain demo_db_from demo_db_add
      demo_db_has_persist demo_db_persist
      [ OpChat "before"; OpAddDocuments [mkDocument "hello world" []];
        OpChat "one"; OpClear; OpChatStream "two"; OpReinitialize;
        OpChat "three" ]
      demo_bot_without_store demo_chat_world in
  get_chat_history _ _ self =
    flat_map turn_entries
      [("two", "You asked: two"); ("three", "You asked: three")]
  /\ invocations w = 3%nat.
Proof. vm_compute. auto. Qed.


End RagChain.

(* ===================================================================== *)
(** * app.py: the upload and chat endpoints *)
(* ===================================================================== *)

Module App.
Import Py.
Import VectorStore.

(** One entry of "processed" and of "failed" in the reply of the upload
    endpoint (their "status" is the constant "success" or "failed"). *)
Record Processed := mkProcessed {
  processed_filename : string;
  processed_chunks : nat
}.

Record Failed := mkFailed {
  failed_filename : string;
  failed_error : string
}.

Record UploadReply := mkUploadReply {
  upload_message : string;
  upload_processed : list Processed;
  upload_failed : list Failed
}.

(** One entry of "sources" in the reply of the chat endpoint, and the
    reply. *)
Record Source := mkSource {
  source_content : string;
  source_metadata : pydict string
}.

Record ChatResponse := mkChatResponse {
  response_answer : string;
  response_sources : list Source
}.

Definition UPLOAD_DIR : string := "uploads".

(** The text shown for a chunk: [page_content[:200] + "..."] when it has
    more than 200 characters, [page_content] otherwise (text is ASCII
    here: a character is a byte). *)
Definition preview (page_content : string) : string :=
  if (200 <? String.length page_content)%nat
  then String.substring 0 200 page_content +:+ "..."
  else page_content.

(** The loop that formats the source documents. *)
Definition format_sources (documents : list Document) : list Source :=
  map (fun doc => mkSource (preview (page_content doc)) (metadata doc))
      documents.

Section Endpoints.

(** The collaborators of the chatbot, of the document processor and of
    the vector store manager, as in their modules. *)
Variable Chroma : Type.
Variable LLM : Type.
Variable from_llm_error : LLM -> Retriever Chroma -> option Exc.
Variable chain_call :
  RagChain.Chain Chroma LLM -> list RagChain.Message -> string ->
  result RagChain.Response.
Variable loader_init : DocumentProcessor.LoaderClass -> string -> option Exc.
Variable loader_load : DocumentProcessor.Loader -> result (list Document).
Variable text_splitter : list Document -> result (list Document).
Variable from_documents : list Document -> string -> string -> result Chroma.
Variable store_add_documents :
  Chroma -> list Document -> result (list string) * Chroma.
Variable has_persist : Chroma -> bool.
Variable persist : Chroma -> result unit * Chroma.
(** [open(file_path, "wb")] and [shutil.copyfileobj] for an uploaded
    file: [None] when they return. *)
Variable open_error : string -> option Exc.
Variable copy_error : string -> option Exc.

(** What the endpoints work on: the chatbot [get_chatbot()] returns,
    whose vector store manager is the one [get_vector_store()] returns,
    and the paths that exist on disk. *)
Record Server := mkServer {
  chatbot : RagChain.RAGChatbot Chroma LLM;
  disk : list string
}.

Definition on_disk (paths : list string) (p : string) : bool :=
  existsb (String.eqb p) paths.

(** The body of the [try] in the loop of [upload_documents], for one
    file: the number of chunks, or the exception, with the server and the
    output after it. *)
Definition upload_one (filename : string) (s : Server) (out : list string)
  : result nat * Server * list string :=
  let file_path := DocumentProcessor.path_join UPLOAD_DIR filename in
  match open_error file_path with
  | Some e => (Raise e, s, out)
  | None =>
      let s1 := mkServer (chatbot s) (file_path :: disk s) in
      match copy_error filename with
      | Some e => (Raise e, s1, out)
      | None =>
          match DocumentProcessor.process_document loader_init loader_load
                  text_splitter (on_disk (disk s1)) file_path out with
          | (Raise e, out1) => (Raise e, s1, out1)
          | (Ok split_docs, out1) =>
              match add_documents Chroma from_documents store_add_documents
                      has_persist persist split_docs
                      (RagChain.vector_store_manager _ _ (chatbot s1)) out1 with
              | (r, manager, out2) =>
                  (match r with
                   | Ok _ => Ok (length split_docs)
                   | Raise e => Raise e
                   end,
                   mkServer (RagChain.set_manager _ _ (chatbot s1) manager)
                     (disk s1),
                   out2)
              end
          end
      end
  end.

(** The loop of [upload_documents]. *)
Fixpoint upload_loop (files : list string)
  (processed_files : list Processed) (failed_files : list Failed)
  (s : Server) (out : list string)
  : list Processed * list Failed * Server * list string :=
  match files with
  | [] => (processed_files, failed_files, s, out)
  | filename :: rest =>
      match upload_one filename s out with
      | (Ok chunks, s', out') =>
          upload_loop rest (processed_files ++ [mkProcessed filename chunks])
            failed_files s' out'
      | (Raise e, s', out') =>
          upload_loop rest processed_files
            (failed_files ++ [mkFailed filename (exc_str e)]) s' out'
      end
  end.

(** [upload_documents], from the chatbot [get_chatbot()] returns on.
    [post_upload] below is the handler on the globals behind the
    accessors, where that call may raise. *)
Definition upload_documents (files : list string) (s : Server)
  (w : RagChain.World) : UploadReply * Server * RagChain.World :=
  match upload_loop files [] [] s (RagChain.stdout w) with
  | (processed_files, failed_files, s1, out) =>
      let '(bot, w') :=
        RagChain.reinitialize_chain Chroma LLM from_llm_error (chatbot s1)
          (RagChain.mkWorld (RagChain.events w) out) in
      (mkUploadReply
         ("Processed " +:+ pretty (length processed_files) +:+ " file(s)")
         processed_files failed_files,
       mkServer bot (disk s1), w')
  end.

(** [chat] of app.py *)
Definition chat (question : string) (s : Server) (w : RagChain.World)
  : ChatResponse * Server * RagChain.World :=
  let '(response, bot, w') :=
    RagChain.chat Chroma LLM from_llm_error chain_call question (chatbot s) w in
  (mkChatResponse (RagChain.answer response)
     (format_sources (RagChain.source_documents response)),
   mkServer bot (disk s), w').

(** ** Properties of the endpoints *)

Lemma length_append s t :
  String.length (s +:+ t) = (String.length s + String.length t)%nat.
Proof.
  induction s as [|c s IH]; [done|].
  rewrite PyFacts.append_cons. simpl. by rewrite IH.
Qed.

Lemma length_substring_prefix n s :
  (n <= String.length s)%nat ->
  String.length (String.substring 0 n s) = n.
Proof.
  revert s. induction n as [|n IH]; intros s Hn.
  - by destruct s.
  - destruct s as [|c s]; simpl in *; [lia|]. rewrite IH; [done|lia].
Qed.

(** The text shown for a chunk is the chunk when it has at most 200
    characters, and its first 200 characters followed by three dots
    otherwise: 203 characters at most. *)
Lemma preview_bounds page_content :
  (String.length (preview page_content) <= 203)%nat /\
  ((String.length page_content <= 200)%nat -> preview page_content = page_content) /\
  ((200 < String.length page_content)%nat ->
   preview page_content = String.substring 0 200 page_content +:+ "..." /\
   String.length (preview page_content) = 203%nat).
Proof.
  unfold preview.
  destruct (Nat.ltb_spec 200 (String.length page_content)) as [Hlong|Hshort].
  - assert (Hlen : String.length (String.substring 0 200 page_content +:+ "...")
                   = 203%nat).
    { rewrite length_append, length_substring_prefix by lia. done. }
    rewrite Hlen. repeat split; try done; lia.
  - repeat split; try done; lia.
Qed.

(** The chat endpoint returns the chatbot's answer and one source per
    source document, in the same order and with the metadata untouched;
    the content of a source is the chunk's text cut to its first 200
    characters and three dots when it is longer than that, so it never has
    more than 203 characters. *)
Theorem chat_endpoint_previews_sources question s w :
  let '(response, _, _) := chat question s w in
  let '(reply, _, _) :=
    RagChain.chat Chroma LLM from_llm_error chain_call question (chatbot s) w in
  response_answer response = RagChain.answer reply
  /\ map source_metadata (response_sources response) =
     map metadata (RagChain.source_documents reply)
  /\ Forall2
       (fun source doc =>
          (String.length (source_content source) <= 203)%nat /\
          ((String.length (page_content doc) <= 200)%nat ->
           source_content source = page_content doc) /\
          ((200 < String.length (page_content doc))%nat ->
           source_content source =
           String.substring 0 200 (page_content doc) +:+ "..."))
       (response_sources response) (RagChain.source_documents reply).
Proof.
  unfold chat.
  destruct (RagChain.chat _ _ _ _ _ _ _) as [[reply bot] w']. simpl.
  split; [done|].
  generalize (RagChain.source_documents reply) as docs.
  induction docs as [|doc docs [IHm IHf]]; simpl; [by split|].
  split; [by rewrite IHm|]. constructor; [|done]. simpl.
  pose proof (preview_bounds (page_content doc)) as (Hb & Hs & Hl).
  repeat split; [done|done|]. intros H. by apply Hl.
Qed.






(** ** The upload endpoint on the globals it reaches *)

(** [upload_documents] above starts from the chatbot [get_chatbot()]
    returns.  Here the two globals behind the accessors are part of the
    state: [_chatbot] of rag_chain.py and [_vector_store] of
    vector_store.py, either of which may not exist yet, and the
    constructors that fill them may raise. *)

(** The constructor of the vector store manager, as in its module. *)
Variable open_collection : string -> string -> Chroma.
Variable store_path_exists : string -> bool.
Variable getenv : string -> option string.
Variable embeddings_error : string -> option Exc.
(** [get_manager_llm()] of llm_loader.py, run on the loader singleton:
    the LLM or the exception, and the output after the call. *)
Variable get_manager_llm : list string -> result LLM * list string.

(** The two globals.  A chatbot that exists holds the vector store
    manager as its field, and the global [_vector_store] is that same
    object; without a chatbot there is the global [_vector_store] only. *)
Inductive Globals :=
| ChatbotBuilt (bot : RagChain.RAGChatbot Chroma LLM)
| ChatbotMissing (_vector_store : option (VectorStoreManager Chroma)).

Definition the_vector_store (g : Globals)
  : option (VectorStoreManager Chroma) :=
  match g with
  | ChatbotBuilt bot => Some (RagChain.vector_store_manager _ _ bot)
  | ChatbotMissing vs => vs
  end.

(** A change of the vector store manager object, seen through whatever
    holds it. *)
Definition set_vector_store (g : Globals)
  (manager : VectorStoreManager Chroma) : Globals :=
  match g with
  | ChatbotBuilt bot => ChatbotBuilt (RagChain.set_manager _ _ bot manager)
  | ChatbotMissing _ => ChatbotMissing (Some manager)
  end.

(** [get_vector_store()] *)
Definition get_vector_store (g : Globals) (out : list string)
  : result (VectorStoreManager Chroma) * Globals * list string :=
  match g with
  | ChatbotBuilt bot => (Ok (RagChain.vector_store_manager _ _ bot), g, out)
  | ChatbotMissing vs =>
      match VectorStore.get_vector_store Chroma open_collection
              store_path_exists getenv embeddings_error vs out with
      | (r, vs', out') => (r, ChatbotMissing vs', out')
      end
  end.

(** [get_chatbot()]: the chatbot that exists, or [RAGChatbot()] with the
    defaults of its signature.  The constructor asks for the manager LLM
    first and for the vector store manager next; when either raises, no
    chatbot is assigned. *)
Definition get_chatbot (g : Globals) (w : RagChain.World)
  : result (RagChain.RAGChatbot Chroma LLM) * Globals * RagChain.World :=
  match g with
  | ChatbotBuilt bot => (Ok bot, g, w)
  | ChatbotMissing vs =>
      let w1 := RagChain.print "Initializing LLM..." w in
      match get_manager_llm (RagChain.stdout w1) with
      | (Raise e, out) =>
          (Raise e, ChatbotMissing vs, RagChain.mkWorld (RagChain.events w1) out)
      | (Ok the_llm, out) =>
          let w2 :=
            RagChain.print "Initializing vector store..."
              (RagChain.mkWorld (RagChain.events w1) out) in
          match get_vector_store (ChatbotMissing vs) (RagChain.stdout w2) with
          | (Raise e, g', out') =>
              (Raise e, g', RagChain.mkWorld (RagChain.events w2) out')
          | (Ok manager, _, out') =>
              let '(bot, w3) :=
                RagChain._initialize_chain Chroma LLM from_llm_error
                  (RagChain.mkChatbot Chroma LLM "chat_history" true false
                     the_llm manager
                     (RagChain.new_memory "chat_history" true "answer" 3000)
                     None)
                  (RagChain.mkWorld (RagChain.events w2) out') in
              (Ok bot, ChatbotBuilt bot, w3)
          end
      end
  end.

(** What a handler answers: the value it returns, or the
    [HTTPException] it raises. *)
Inductive Answer (A : Type) :=
| Returned (a : A)
| HTTPException (status_code : nat) (detail : string).
Arguments Returned {A} a.
Arguments HTTPException {A} status_code detail.

(** The body of the inner [try] of [upload_documents], for one file:
    the number of chunks or the exception, with the globals, the paths on
    disk and the output after it. *)
Definition upload_file (filename : string) (g : Globals)
  (paths : list string) (out : list string)
  : result nat * Globals * list string * list string :=
  let file_path := DocumentProcessor.path_join UPLOAD_DIR filename in
  match open_error file_path with
  | Some e => (Raise e, g, paths, out)
  | None =>
      let paths1 := file_path :: paths in
      match copy_error filename with
      | Some e => (Raise e, g, paths1, out)
      | None =>
          match DocumentProcessor.process_document loader_init loader_load
                  text_splitter (on_disk paths1) file_path out with
          | (Raise e, out1) => (Raise e, g, paths1, out1)
          | (Ok split_docs, out1) =>
              match get_vector_store g out1 with
              | (Raise e, g1, out2) => (Raise e, g1, paths1, out2)
              | (Ok manager, g1, out2) =>
                  match add_documents Chroma from_documents
                          store_add_documents has_persist persist split_docs
                          manager out2 with
                  | (r, manager', out3) =>
                      (match r with
                       | Ok _ => Ok (length split_docs)
                       | Raise e => Raise e
                       end,
                       set_vector_store g1 manager', paths1, out3)
                  end
              end
          end
      end
  end.

(** The loop of [upload_documents]. *)
Fixpoint upload_files (files : list string)
  (processed_files : list Processed) (failed_files : list Failed)
  (g : Globals) (paths : list string) (out : list string)
  : list Processed * list Failed * Globals * list string * list string :=
  match files with
  | [] => (processed_files, failed_files, g, paths, out)
  | filename :: rest =>
      match upload_file filename g paths out with
      | (Ok chunks, g', paths', out') =>
          upload_files rest (processed_files ++ [mkProcessed filename chunks])
            failed_files g' paths' out'
      | (Raise e, g', paths', out') =>
          upload_files rest processed_files
            (failed_files ++ [mkFailed filename (exc_str e)]) g' paths' out'
      end
  end.

(** [upload_documents], the handler of POST /upload.  What is raised
    after the loop, by [get_chatbot()], reaches the outer [except] and is
    answered with status 500. *)
Definition post_upload (files : list string) (g : Globals)
  (paths : list string) (w : RagChain.World)
  : Answer UploadReply * Globals * list string * RagChain.World :=
  match upload_files files [] [] g paths (RagChain.stdout w) with
  | (processed_files, failed_files, g1, paths1, out) =>
      match get_chatbot g1 (RagChain.mkWorld (RagChain.events w) out) with
      | (Raise e, g2, w2) => (HTTPException 500 (exc_str e), g2, paths1, w2)
      | (Ok bot, _, w2) =>
          let '(bot', w3) :=
            RagChain.reinitialize_chain Chroma LLM from_llm_error bot w2 in
          (Returned
             (mkUploadReply
                ("Processed " +:+ pretty (length processed_files) +:+
                 " file(s)")
                processed_files failed_files),
           ChatbotBuilt bot', paths1, w3)
      end
  end.

(** With a chatbot the handler is [upload_documents] above. *)
Lemma upload_file_with_chatbot filename s out :
  upload_file filename (ChatbotBuilt (chatbot s)) (disk s) out =
  let '(r, s', out') := upload_one filename s out in
  (r, ChatbotBuilt (chatbot s'), disk s', out').
Proof.
  unfold upload_file, upload_one. simpl.
  destruct (open_error _); [done|].
  destruct (copy_error _); [done|].
  destruct (DocumentProcessor.process_document _ _ _ _ _ _)
    as [[split_docs|e] out1]; [|done].
  by destruct (add_documents _ _ _ _ _ _ _ _) as [[r manager] out2].
Qed.

Lemma upload_files_with_chatbot files :
  forall processed_files failed_files s out,
    upload_files files processed_files failed_files
      (ChatbotBuilt (chatbot s)) (disk s) out =
    let '(P, F, s', out') :=
      upload_loop files processed_files failed_files s out in
    (P, F, ChatbotBuilt (chatbot s'), disk s', out').
Proof.
  induction files as [|filename rest IH]; intros P F s out; simpl; [done|].
  rewrite upload_file_with_chatbot.
  destruct (upload_one filename s out) as [[[chunks|e] s1] out1];
    apply IH.
Qed.

Lemma post_upload_with_chatbot files s w :
  post_upload files (ChatbotBuilt (chatbot s)) (disk s) w =
  let '(reply, s', w') := upload_documents files s w in
  (Returned reply, ChatbotBuilt (chatbot s'), disk s', w').
Proof.
  unfold post_upload, upload_documents. rewrite upload_files_with_chatbot.
  destruct (upload_loop files [] [] s (RagChain.stdout w))
    as [[[P F] s1] out]. simpl.
  by destruct (RagChain.reinitialize_chain _ _ _ _ _) as [bot w'].
Qed.

(** The loop reports every file once, whatever the globals are. *)
Lemma upload_files_partition files :
  forall processed_files failed_files g paths out processed' failed' g'
         paths' out',
    upload_files files processed_files failed_files g paths out =
    (processed', failed', g', paths', out') ->
    exists ps fs,
      processed' = processed_files ++ ps /\
      failed' = failed_files ++ fs /\
      map processed_filename ps ++ map failed_filename fs ≡ₚ files /\
      sublist (map processed_filename ps) files /\
      sublist (map failed_filename fs) files.
Proof.
  induction files as [|filename rest IH];
    intros P F g paths out P' F' g' paths' out' Hloop; simpl in Hloop.
  - simplify_eq. exists [], []. by rewrite !app_nil_r.
  - destruct (upload_file filename g paths out) as [[[[chunks|e] g1] paths1] out1].
    + destruct (IH _ _ _ _ _ _ _ _ _ _ Hloop)
        as (ps & fs & -> & -> & Hp & Hs1 & Hs2).
      exists (mkProcessed filename chunks :: ps), fs.
      rewrite <- app_assoc. simpl. repeat split; try done.
      * by rewrite Hp.
      * by apply sublist_skip.
      * by apply sublist_cons.
    + destruct (IH _ _ _ _ _ _ _ _ _ _ Hloop)
        as (ps & fs & -> & -> & Hp & Hs1 & Hs2).
      exists ps, (mkFailed filename (exc_str e) :: fs).
      rewrite <- app_assoc. simpl. repeat split; try done.
      * rewrite <- Hp. by rewrite Permutation_middle.
      * by apply sublist_cons.
      * by apply sublist_skip.
Qed.

(** [get_chatbot()] raises only when there is no chatbot, and leaves
    none behind then; the vector store manager is what it was. *)
Lemma get_chatbot_raises g w e g' w' :
  get_chatbot g w = (Raise e, g', w') ->
  (exists vs, g = ChatbotMissing vs)
  /\ (exists vs', g' = ChatbotMissing vs')
  /\ the_vector_store g' = the_vector_store g.
Proof.
  unfold get_chatbot, get_vector_store, VectorStore.get_vector_store.
  intros H. destruct g as [bot|vs]; [done|].
  split; [by eexists|].
  destruct (get_manager_llm _) as [[the_llm|e0] out].
  - destruct vs as [manager|].
    + by destruct (RagChain._initialize_chain _ _ _ _ _).
    + destruct (VectorStore.__init__ _ _ _ _ _ _ _ _ _) as [[manager|e1] out'].
      * by destruct (RagChain._initialize_chain _ _ _ _ _).
      * simplify_eq. split; [by eexists|done].
  - simplify_eq. split; [by eexists|done].
Qed.

(** The upload endpoint answers in one of two ways.  It returns a
    report, in which every uploaded file stands exactly once: the names of
    the processed files and of the failed files, each list in the order of
    the upload, together make up the uploaded files, and the message counts
    the processed ones.  Or it answers with status 500 and the text of
    what [get_chatbot()] raised after the loop, which happens only when
    there was no chatbot: then nothing is reported although the loop has
    run, the disk and the vector store are as the loop left them, and
    there is still no chatbot. *)
Theorem upload_reports_every_file_once files g paths w :
  let '(answer, g', paths', w') := post_upload files g paths w in
  let '(_, _, g1, paths1, out1) :=
    upload_files files [] [] g paths (RagChain.stdout w) in
  match answer with
  | Returned reply =>
      (exists bot, g' = ChatbotBuilt bot)
      /\ (length (upload_processed reply) + length (upload_failed reply))%nat
         = length files
      /\ map processed_filename (upload_processed reply) ++
         map failed_filename (upload_failed reply) ≡ₚ files
      /\ sublist (map processed_filename (upload_processed reply)) files
      /\ sublist (map failed_filename (upload_failed reply)) files
      /\ upload_message reply =
         "Processed " +:+ pretty (length (upload_processed reply)) +:+
         " file(s)"
  | HTTPException status_code detail =>
      status_code = 500%nat
      /\ (exists e,
            (get_chatbot g1 (RagChain.mkWorld (RagChain.events w) out1)).1.1
            = Raise e
            /\ detail = exc_str e)
      /\ (exists vs, g = ChatbotMissing vs)
      /\ (exists vs', g' = ChatbotMissing vs')
      /\ the_vector_store g' = the_vector_store g1
      /\ paths' = paths1
  end.
Proof.
  unfold post_upload.
  destruct (upload_files files [] [] g paths (RagChain.stdout w))
    as [[[[P F] g1] paths1] out1] eqn:Hloop.
  destruct (get_chatbot g1 _) as [[[bot|e] g2] w2] eqn:Hbot.
  - destruct (RagChain.reinitialize_chain _ _ _ _ _) as [bot' w3]. simpl.
    destruct (upload_files_partition _ _ _ _ _ _ _ _ _ _ _ Hloop)
      as (ps & fs & -> & -> & Hp & Hs1 & Hs2). simpl.
    split; [by eexists|]. repeat split; try done.
    apply Permutation_length in Hp.
    by rewrite length_app, !length_map in Hp.
  - destruct (get_chatbot_raises _ _ _ _ _ Hbot) as ([vs1 Hg1] & Hg2 & Hvs).
    split; [done|]. split; [by exists e|].
    split; [|done].
    (* the chatbot is never taken away by the loop *)
    destruct g as [bot|vs]; [|by eexists].
    exfalso.
    pose proof (upload_files_with_chatbot files [] []
                  (mkServer bot paths) (RagChain.stdout w)) as Hagree.
    simpl in Hagree. rewrite Hloop in Hagree.
    destruct (upload_loop files [] [] _ _) as [[[P' F'] s'] out'].
    by simplify_eq.
Qed.

End Endpoints.

Arguments Returned {A} a.
Arguments HTTPException {A} status_code detail.

(** ** A server to run *)

Definition demo_server : Server unit unit :=
  mkServer unit unit RagChain.demo_bot_without_store [].

Definition demo_long_text : string :=
  "0123456789" +:+ "0123456789" +:+ "0123456789" +:+ "0123456789" +:+
  "0123456789" +:+ "0123456789" +:+ "0123456789" +:+ "0123456789" +:+
  "0123456789" +:+ "0123456789" +:+ "0123456789" +:+ "0123456789" +:+
  "0123456789" +:+ "0123456789" +:+ "0123456789" +:+ "0123456789" +:+
  "0123456789" +:+ "0123456789" +:+ "0123456789" +:+ "0123456789" +:+
  "0123456789".

(** A chain that answers with two source documents, one short and one
    of 210 characters. *)
Definition demo_chain_with_sources (c : RagChain.Chain unit unit)
  (history : list RagChain.Message) (question : string)
  : result RagChain.Response :=
  Ok (RagChain.mkResponse (Some "an answer")
        (Some [ mkDocument "hello world" [("source", "a.txt")];
                mkDocument demo_long_text [("source", "b.txt")] ])).

(** Two files are uploaded to a server without documents: the text file
    is processed, the markdown file is refused; the chain is built, and
    the next question is answered with sources cut to 203 characters. *)
Example demo_upload_then_chat :
  let '(reply, s1, w1) :=
    upload_documents unit unit RagChain.demo_from_llm
      DocumentProcessor.demo_loader_init DocumentProcessor.demo_load
      DocumentProcessor.demo_splitter RagChain.demo_db_from
      RagChain.demo_db_add RagChain.demo_db_has_persist
      RagChain.demo_db_persist (fun _ => None) (fun _ => None)
      ["a.txt"; "notes.md"] demo_server RagChain.demo_chat_world in
  let '(response, s2, w2) :=
    chat unit unit RagChain.demo_from_llm demo_chain_with_sources "hello"
      s1 w1 in
  upload_processed reply = [mkProcessed "a.txt" 1]
  /\ map failed_filename (upload_failed reply) = ["notes.md"]
  /\ upload_message reply = "Processed 1 file(s)"
  /\ disk _ _ s1 = ["uploads/notes.md"; "uploads/a.txt"]
  /\ response_answer response = "an answer"
  /\ map (fun src => String.length (source_content src))
       (response_sources response) = [11; 203]%nat
  /\ RagChain.invocations w2 = 1%nat.
Proof. vm_compute. auto 10. Qed.

(** ** Uploads before there is a chatbot *)

(** A server on which nothing has been built yet: no chatbot, no vector
    store manager.  The embedding model loads, no database directory
    exists. *)
Definition demo_no_manager_llm (out : list string)
  : result unit * list string :=
  (Raise (mkExc ValueError "No managerLLM specified in configuration"), out).
Definition demo_manager_llm (out : list string) : result unit * list string :=
  (Ok tt, out).

Definition demo_post_upload
  (get_manager_llm : list string -> result unit * list string)
  (files : list string) (g : Globals unit unit)
  : Answer UploadReply * Globals unit unit * list string * RagChain.World :=
  post_upload unit unit RagChain.demo_from_llm
    DocumentProcessor.demo_loader_init DocumentProcessor.demo_load
    DocumentProcessor.demo_splitter RagChain.demo_db_from RagChain.demo_db_add
    RagChain.demo_db_has_persist RagChain.demo_db_persist
    (fun _ => None) (fun _ => None)
    (fun _ _ => tt) (fun _ => false) (fun _ => None) (fun _ => None)
    get_manager_llm files g [] RagChain.demo_chat_world.

(** The configuration names no manager LLM: the text file is saved and
    indexed all the same, and the request is answered with status 500 and
    no report. *)
Example demo_upload_without_manager_llm :
  let '(answer, g', paths', w') :=
    demo_post_upload demo_no_manager_llm ["a.txt"; "notes.md"]
      (ChatbotMissing unit unit None) in
  answer = HTTPException 500 "No managerLLM specified in configuration"
  /\ g' = ChatbotMissing unit unit
            (Some (mkManager unit "./chroma_db" "rag_documents" (Some tt)))
  /\ paths' = ["uploads/notes.md"; "uploads/a.txt"]
  /\ In "✓ Successfully added 1 documents to vector store"
        (RagChain.stdout w').
Proof. vm_compute. do 3 (split; [reflexivity|]). auto 20. Qed.

(** The same request when the manager LLM loads: the chatbot is built
    at the end of the request, and the report names both files. *)
Example demo_upload_builds_chatbot :
  let '(answer, g', paths', w') :=
    demo_post_upload demo_manager_llm ["a.txt"; "notes.md"]
      (ChatbotMissing unit unit None) in
  match answer, g' with
  | Returned reply, ChatbotBuilt _ _ bot =>
      upload_processed reply = [mkProcessed "a.txt" 1]
      /\ map failed_filename (upload_failed reply) = ["notes.md"]
      /\ upload_message reply = "Processed 1 file(s)"
      /\ is_Some (RagChain.chain _ _ bot)
  | _, _ => False
  end.
Proof. vm_compute. repeat split; try done. by eexists. Qed.

End App.
